(** * Irrigation decision engine (AI.py): shallow embedding and properties

    The engine of [AI.py] is embedded function by function.

    - Numbers are IEEE binary64 values ([PrimFloat.float]), the values of
      Python's [float].  The integer literals of the source (60, 80, 100...)
      are the binary64 values equal to them: Python's mixed int/float
      comparison and arithmetic agree with binary64 on such integers.
    - Dictionaries ([soil_data], [weather_data], [CROP_PROFILES],
      [growth_stage_factor]) are [gmap string _]; [d.get(k, v)] is
      [default v (d !! k)].
    - Status strings stay strings, as in the source.
    - Exceptions are values of [result]; the engine's [decision_log] is
      threaded explicitly through [analyze].
    - [datetime.now().isoformat()] is an input ([now]) of [analyze].
    - The C library's [pow], which Python calls for [x ** y] on a positive
      finite base, is a variable of the development. *)

From Stdlib Require Import Floats ZArith Lia.
From stdpp Require Import gmap strings list.

(** ** Python values and exceptions *)

Inductive exn := AttributeError | KeyError | TypeError.

Inductive result (A : Type) :=
| Ok (a : A)
| Raise (e : exn).
Arguments Ok {A} a.
Arguments Raise {A} e.

#[global] Instance result_ret : MRet result := fun A a => Ok a.
#[global] Instance result_bind : MBind result := fun A B f m =>
  match m with
  | Ok a => f a
  | Raise e => Raise e
  end.

(** The objects a caller can pass for [crop_type]: a [str], or [None]. *)
Inductive pyobj :=
| PyNone
| PyStr (s : string).

(** The numbers that flow through [_calculate_et]: a float, or a complex
    number (of which only the type matters to the code that follows). *)
Inductive pynum :=
| PyFloat (x : float)
| PyComplex.

(** Python's [>] and [>=] on floats. *)
Definition gtb (x y : float) : bool := PrimFloat.ltb y x.
Definition geb (x y : float) : bool := PrimFloat.leb y x.

Declare Scope py_scope.
Delimit Scope py_scope with py.
Notation "x <? y" := (PrimFloat.ltb x y) : py_scope.
Notation "x <=? y" := (PrimFloat.leb x y) : py_scope.
Notation "x >? y" := (gtb x y) (at level 70, no associativity) : py_scope.
Notation "x >=? y" := (geb x y) (at level 70, no associativity) : py_scope.
Notation "x + y" := (PrimFloat.add x y) : py_scope.
Notation "x - y" := (PrimFloat.sub x y) : py_scope.
Notation "x * y" := (PrimFloat.mul x y) : py_scope.
Notation "x / y" := (PrimFloat.div x y) : py_scope.

(** [str.lower()], on the bytes of the string.  Bytes above 127 (the UTF-8
    encoding of non-ASCII characters) are kept.  For the lookup in
    [CROP_PROFILES] this is [str.lower()]: the only non-ASCII character
    that Python lower-cases to ASCII is the Kelvin sign, to k, and no key
    of the table has a k. *)
Definition lower_ascii (c : Ascii.ascii) : Ascii.ascii :=
  let n := Ascii.N_of_ascii c in
  if ((65 <=? n) && (n <=? 90))%N then Ascii.ascii_of_N (n + 32) else c.

Fixpoint lower (s : string) : string :=
  match s with
  | EmptyString => EmptyString
  | String c r => String (lower_ascii c) (lower r)
  end.

(** [obj.lower()]: [None] has no such attribute. *)
Definition py_lower (o : pyobj) : result string :=
  match o with
  | PyStr s => Ok (lower s)
  | PyNone => Raise AttributeError
  end.

(** [d[k]] *)
Definition getitem {V} (d : gmap string V) (k : string) : result V :=
  match d !! k with
  | Some v => Ok v
  | None => Raise KeyError
  end.

(** ** Enumerations *)

Inductive IrrigationAdvice := IRRIGATE | HOLD | ALERT.

Definition advice_value (a : IrrigationAdvice) : string :=
  match a with
  | IRRIGATE => "IRRIGATE"
  | HOLD => "HOLD"
  | ALERT => "ALERT"
  end.

#[global] Instance IrrigationAdvice_eq_dec : EqDecision IrrigationAdvice.
Proof. solve_decision. Defined.

Inductive AlertType :=
| LOW_MOISTURE | HIGH_MOISTURE | NUTRIENT_DEFICIENCY | PH_IMBALANCE
| EXTREME_TEMPERATURE | RAIN_EXPECTED | SENSOR_MALFUNCTION.

Definition alert_value (a : AlertType) : string :=
  match a with
  | LOW_MOISTURE => "LOW_MOISTURE"
  | HIGH_MOISTURE => "HIGH_MOISTURE"
  | NUTRIENT_DEFICIENCY => "NUTRIENT_DEFICIENCY"
  | PH_IMBALANCE => "PH_IMBALANCE"
  | EXTREME_TEMPERATURE => "EXTREME_TEMPERATURE"
  | RAIN_EXPECTED => "RAIN_EXPECTED"
  | SENSOR_MALFUNCTION => "SENSOR_MALFUNCTION"
  end.

(** ** Crop profiles *)

Record CropProfile := {
  name : string;
  moisture_optimal_min : float;
  moisture_optimal_max : float;
  moisture_critical_min : float;
  moisture_critical_max : float;
  ph_optimal_min : float;
  ph_optimal_max : float;
  nitrogen_min : float;
  phosphorus_min : float;
  potassium_min : float;
  temp_optimal_min : float;
  temp_optimal_max : float;
  growth_stage_factor : gmap string float
}.

#[local] Set Warnings "-inexact-float".

Definition tomato : CropProfile := {|
  name := "Tomato";
  moisture_optimal_min := 60; moisture_optimal_max := 80;
  moisture_critical_min := 40; moisture_critical_max := 90;
  ph_optimal_min := 6.0; ph_optimal_max := 6.8;
  nitrogen_min := 100; phosphorus_min := 40; potassium_min := 150;
  temp_optimal_min := 18; temp_optimal_max := 28;
  growth_stage_factor :=
    list_to_map [("seedling", 0.7%float); ("vegetative", 1.0%float);
                 ("flowering", 1.2%float); ("fruiting", 1.3%float)]
|}.

Definition maize : CropProfile := {|
  name := "Maize";
  moisture_optimal_min := 55; moisture_optimal_max := 75;
  moisture_critical_min := 35; moisture_critical_max := 85;
  ph_optimal_min := 5.8; ph_optimal_max := 7.0;
  nitrogen_min := 120; phosphorus_min := 50; potassium_min := 100;
  temp_optimal_min := 20; temp_optimal_max := 30;
  growth_stage_factor :=
    list_to_map [("seedling", 0.6%float); ("vegetative", 1.0%float);
                 ("tasseling", 1.4%float); ("grain_fill", 1.2%float)]
|}.

Definition potato : CropProfile := {|
  name := "Potato";
  moisture_optimal_min := 65; moisture_optimal_max := 85;
  moisture_critical_min := 45; moisture_critical_max := 90;
  ph_optimal_min := 5.0; ph_optimal_max := 6.5;
  nitrogen_min := 110; phosphorus_min := 45; potassium_min := 180;
  temp_optimal_min := 15; temp_optimal_max := 24;
  growth_stage_factor :=
    list_to_map [("planting", 0.5%float); ("vegetative", 0.8%float);
                 ("tuber_init", 1.2%float); ("bulking", 1.4%float)]
|}.

Definition lettuce : CropProfile := {|
  name := "Lettuce";
  moisture_optimal_min := 70; moisture_optimal_max := 85;
  moisture_critical_min := 50; moisture_critical_max := 90;
  ph_optimal_min := 6.0; ph_optimal_max := 7.0;
  nitrogen_min := 80; phosphorus_min := 30; potassium_min := 120;
  temp_optimal_min := 15; temp_optimal_max := 20;
  growth_stage_factor :=
    list_to_map [("seedling", 0.6%float); ("vegetative", 1.0%float);
                 ("heading", 1.1%float)]
|}.

Definition generic_crop : CropProfile := {|
  name := "Generic Crop";
  moisture_optimal_min := 60; moisture_optimal_max := 80;
  moisture_critical_min := 40; moisture_critical_max := 90;
  ph_optimal_min := 6.0; ph_optimal_max := 7.0;
  nitrogen_min := 100; phosphorus_min := 40; potassium_min := 150;
  temp_optimal_min := 18; temp_optimal_max := 28;
  growth_stage_factor := list_to_map [("default", 1.0%float)]
|}.

Definition CROP_PROFILES : gmap string CropProfile :=
  list_to_map [("tomato", tomato); ("maize", maize); ("potato", potato);
               ("lettuce", lettuce); ("default", generic_crop)].

(** [CROP_PROFILES.get(crop_type.lower(), CROP_PROFILES['default'])]:
    the arguments are evaluated left to right, then [get] is applied. *)
Definition lookup_profile (crop_type : pyobj) : result CropProfile :=
  key ← py_lower crop_type;
  dflt ← getitem CROP_PROFILES "default";
  mret (default dflt (CROP_PROFILES !! key)).

(** ** The decision record *)

(** The f-strings appended to [reasons], kept as the message kind and the
    numbers it formats, in the order they appear in the message. *)
Inductive Reason :=
| CriticalMoistureMin (moisture critical_min : float)
| CriticalMoistureMax (moisture critical_max : float)
| RainExpected (rain_probability rain_amount : float)
| LowNitrogen (nitrogen minimum : float)
| LowPhosphorus (phosphorus minimum : float)
| LowPotassium (potassium minimum : float)
| PhImbalance (ph optimal_min optimal_max : float)
| SoilTemp (soil_temp optimal_min optimal_max : float)
| RecommendedIrrigation (irrigation_amount irrigation_duration : float).

Record Nutrients := {
  nitrogen : float;
  phosphorus : float;
  potassium : float;
  nutrient_status : string
}.

Record Soil := {
  moisture : float;
  moisture_status : string;
  ph : float;
  soil_temperature : float;
  nutrients : Nutrients
}.

Record Weather := {
  temperature : float;
  humidity : float;
  rain_probability : float;
  rain_amount : float;
  wind_speed : float;
  weather_status : string
}.

Record Evapotranspiration := {
  daily_et_mm : float;
  water_loss_rate : string
}.

Record Analysis := {
  soil : Soil;
  weather : Weather;
  evapotranspiration : Evapotranspiration
}.

Record Recommendations := {
  irrigation_amount_mm : float;
  irrigation_duration_minutes : float;
  next_check_hours : Z
}.

Record Response := {
  timestamp : string;
  decision : string;
  confidence : Z;
  crop : string;
  growth_stage : string;
  analysis : Analysis;
  alerts : gset string;
  reasons : list Reason;
  recommendations : Recommendations
}.

(** [class IrrigationDecisionEngine]: its only attribute is the log. *)
Record IrrigationDecisionEngine := {
  decision_log : list Response
}.

(** [__init__] *)
Definition init : IrrigationDecisionEngine := {| decision_log := [] |}.

(** ** The engine *)

Section Engine.

(** The C library's [pow(x, y)], called by [x ** y] once CPython has ruled
    out its special cases. *)
Variable libm_pow : float → float → float.

Local Open Scope py_scope.

(** [wind ** 0.5], by the cases of CPython's [float_pow] for a non-zero,
    finite, non-integral exponent: a NaN base is returned, an infinite base
    gives [fabs] of it, a zero base gives 0.0, a negative base gives a
    complex number, and the rest goes to [pow]. *)
Definition pow_half (iv : float) : pynum :=
  if PrimFloat.is_nan iv then PyFloat iv
  else if PrimFloat.is_infinity iv then PyFloat (PrimFloat.abs iv)
  else if PrimFloat.is_zero iv then PyFloat 0%float
  else if iv <? 0%float then PyComplex
  else PyFloat (libm_pow iv 0.5%float).

(** [float * number] and [number * float] *)
Definition py_mul (a b : pynum) : pynum :=
  match a, b with
  | PyFloat x, PyFloat y => PyFloat (x * y)
  | _, _ => PyComplex
  end.

(** [max(0, x)]: [x] if [x > 0], else the first argument; comparing a
    complex number raises. *)
Definition py_max0 (x : pynum) : result float :=
  match x with
  | PyFloat v => Ok (if v >? 0%float then v else 0%float)
  | PyComplex => Raise TypeError
  end.

Definition _analyze_moisture (moisture : float) (crop : CropProfile)
    (growth_stage : string) : string :=
  let stage_factor := default 1.0%float (growth_stage_factor crop !! growth_stage) in
  let optimal_min := moisture_optimal_min crop * stage_factor in
  let optimal_max := moisture_optimal_max crop * stage_factor in
  if moisture <? moisture_critical_min crop then "CRITICALLY_LOW"
  else if moisture <? optimal_min then "LOW"
  else if moisture <=? optimal_max then "OPTIMAL"
  else if moisture <=? moisture_critical_max crop then "HIGH"
  else "CRITICALLY_HIGH".

Definition _analyze_weather (weather : gmap string float) : string :=
  let rain_prob := default 0%float (weather !! "rain_probability") in
  let temp := default 25%float (weather !! "temperature") in
  if rain_prob >? 70%float then "HEAVY_RAIN_EXPECTED"
  else if rain_prob >? 40%float then "RAIN_LIKELY"
  else if temp >? 35%float then "EXTREME_HEAT"
  else if temp <? 5%float then "EXTREME_COLD"
  else "NORMAL".

Definition _analyze_nutrients (n p k : float) (crop : CropProfile) : string :=
  let n_ok := n >=? nitrogen_min crop in
  let p_ok := p >=? phosphorus_min crop in
  let k_ok := k >=? potassium_min crop in
  if n_ok && p_ok && k_ok then "ADEQUATE"
  else if negb n_ok || negb p_ok || negb k_ok then "DEFICIENT"
  else "BORDERLINE".

Definition _make_decision (moisture : float) (moisture_status : string)
    (weather_status : string) (rain_prob : float) (crop : CropProfile)
    (alerts : list string) : IrrigationAdvice :=
  if bool_decide (moisture_status ∈ ["CRITICALLY_LOW"; "CRITICALLY_HIGH"]) then ALERT
  else if bool_decide (alert_value SENSOR_MALFUNCTION ∈ alerts) then ALERT
  else if bool_decide (weather_status ∈ ["HEAVY_RAIN_EXPECTED"; "RAIN_LIKELY"]) then HOLD
  else if bool_decide (moisture_status ∈ ["OPTIMAL"; "HIGH"]) then HOLD
  else if rain_prob >? 60%float then HOLD
  else if bool_decide (moisture_status = "LOW") && (rain_prob <? 30%float) then IRRIGATE
  else HOLD.

Definition _calculate_et (temp humidity wind : float) (growth_stage : string)
    (crop : CropProfile) : result float :=
  let base_et :=
    py_mul (PyFloat (0.0023%float * (temp + 17.8%float) * (temp - humidity / 10%float)))
           (pow_half wind) in
  let stage_factor := default 1.0%float (growth_stage_factor crop !! growth_stage) in
  let et_daily := py_mul (py_mul base_et (PyFloat stage_factor)) (PyFloat 1.2%float) in
  py_max0 et_daily.

(** [flow_rate] is the default 10.0 in the one call of [analyze]; on a
    zero flow rate, which no call passes, Python's division would raise
    ZeroDivisionError. *)
Definition _calculate_duration (amount_mm : float) (flow_rate : float) : float :=
  (amount_mm / flow_rate) * 60%float.

Definition _next_check_interval (decision : IrrigationAdvice) (weather : string) : Z :=
  if bool_decide (decision = ALERT) then 2%Z
  else if bool_decide (decision = IRRIGATE) then 12%Z
  else if bool_decide (weather ∈ ["HEAVY_RAIN_EXPECTED"; "RAIN_LIKELY"]) then 6%Z
  else 24%Z.

(** The body of [analyze] up to the construction of [response].  [now] is
    the value of [datetime.now().isoformat()]. *)
Definition build_response (now : string) (soil_data weather_data : gmap string float)
    (crop_type : pyobj) (growth_stage : string) (field_capacity : float)
    : result Response :=
  (* Get crop profile *)
  crop ← lookup_profile crop_type;
  (* Extract data *)
  let moisture := default 50%float (soil_data !! "soil_moisture") in
  let ph := default 6.5%float (soil_data !! "ph") in
  let nitrogen := default 100%float (soil_data !! "nitrogen") in
  let phosphorus := default 40%float (soil_data !! "phosphorus") in
  let potassium := default 150%float (soil_data !! "potassium") in
  let soil_temp := default 22%float (soil_data !! "temperature") in
  (* Weather data *)
  let rain_probability := default 0%float (weather_data !! "rain_probability") in
  let rain_amount := default 0%float (weather_data !! "rain_amount_mm") in
  let temperature := default 25%float (weather_data !! "temperature") in
  let humidity := default 60%float (weather_data !! "humidity") in
  let wind_speed := default 5%float (weather_data !! "wind_speed") in
  let alerts : list string := [] in
  let reasons : list Reason := [] in
  let confidence_score := 100%Z in
  (* 1. soil moisture analysis *)
  let moisture_status := _analyze_moisture moisture crop growth_stage in
  let '(alerts, reasons) :=
    if moisture <? moisture_critical_min crop then
      (alerts ++ [alert_value LOW_MOISTURE],
       reasons ++ [CriticalMoistureMin moisture (moisture_critical_min crop)])
    else if moisture >? moisture_critical_max crop then
      (alerts ++ [alert_value HIGH_MOISTURE],
       reasons ++ [CriticalMoistureMax moisture (moisture_critical_max crop)])
    else (alerts, reasons) in
  (* 2. weather analysis *)
  let weather_status := _analyze_weather weather_data in
  let '(alerts, reasons) :=
    if rain_probability >? 60%float then
      (alerts ++ [alert_value RAIN_EXPECTED],
       reasons ++ [RainExpected rain_probability rain_amount])
    else (alerts, reasons) in
  (* 3. nutrient analysis *)
  let nutrient_status := _analyze_nutrients nitrogen phosphorus potassium crop in
  let '(alerts, reasons) :=
    if nitrogen <? nitrogen_min crop then
      (alerts ++ [alert_value NUTRIENT_DEFICIENCY],
       reasons ++ [LowNitrogen nitrogen (nitrogen_min crop)])
    else (alerts, reasons) in
  let '(alerts, reasons) :=
    if phosphorus <? phosphorus_min crop then
      (alerts ++ [alert_value NUTRIENT_DEFICIENCY],
       reasons ++ [LowPhosphorus phosphorus (phosphorus_min crop)])
    else (alerts, reasons) in
  let '(alerts, reasons) :=
    if potassium <? potassium_min crop then
      (alerts ++ [alert_value NUTRIENT_DEFICIENCY],
       reasons ++ [LowPotassium potassium (potassium_min crop)])
    else (alerts, reasons) in
  (* 4. pH analysis *)
  let '(alerts, reasons) :=
    if negb ((ph_optimal_min crop <=? ph) && (ph <=? ph_optimal_max crop)) then
      (alerts ++ [alert_value PH_IMBALANCE],
       reasons ++ [PhImbalance ph (ph_optimal_min crop) (ph_optimal_max crop)])
    else (alerts, reasons) in
  (* 5. temperature analysis *)
  let '(alerts, reasons) :=
    if (soil_temp <? temp_optimal_min crop) || (soil_temp >? temp_optimal_max crop) then
      (alerts ++ [alert_value EXTREME_TEMPERATURE],
       reasons ++ [SoilTemp soil_temp (temp_optimal_min crop) (temp_optimal_max crop)])
    else (alerts, reasons) in
  (* 6. make decision *)
  let decision :=
    _make_decision moisture moisture_status weather_status rain_probability crop alerts in
  (* 7. evapotranspiration *)
  et_rate ← _calculate_et temperature humidity wind_speed growth_stage crop;
  (* 8. irrigation recommendation *)
  let irrigation_amount := 0%float in
  let irrigation_duration := 0%float in
  let '(irrigation_amount, irrigation_duration, reasons) :=
    if bool_decide (decision = IRRIGATE) then
      let moisture_deficit := moisture_optimal_max crop - moisture in
      let irrigation_amount := (moisture_deficit / 100%float) * field_capacity in
      let irrigation_duration := _calculate_duration irrigation_amount 10.0%float in
      (irrigation_amount, irrigation_duration,
       reasons ++ [RecommendedIrrigation irrigation_amount irrigation_duration])
    else (irrigation_amount, irrigation_duration, reasons) in
  mret {|
    timestamp := now;
    decision := advice_value decision;
    confidence := confidence_score;
    crop := name crop;
    growth_stage := growth_stage;
    analysis := {|
      soil := {|
        moisture := moisture;
        moisture_status := moisture_status;
        ph := ph;
        soil_temperature := soil_temp;
        nutrients := {|
          nitrogen := nitrogen;
          phosphorus := phosphorus;
          potassium := potassium;
          nutrient_status := nutrient_status
        |}
      |};
      weather := {|
        temperature := temperature;
        humidity := humidity;
        rain_probability := rain_probability;
        rain_amount := rain_amount;
        wind_speed := wind_speed;
        weather_status := weather_status
      |};
      evapotranspiration := {|
        daily_et_mm := et_rate;
        water_loss_rate :=
          if (3%float <=? et_rate) && (et_rate <=? 7%float) then "moderate"
          else if et_rate <? 3%float then "low" else "high"
      |}
    |};
    alerts := list_to_set alerts;
    reasons := reasons;
    recommendations := {|
      irrigation_amount_mm := irrigation_amount;
      irrigation_duration_minutes := irrigation_duration;
      next_check_hours := _next_check_interval decision weather_status
    |}
  |}.

(** [analyze]: the response is appended to the log and returned; an
    exception raised on the way leaves the log as it was. *)
Definition analyze (self : IrrigationDecisionEngine) (now : string)
    (soil_data weather_data : gmap string float) (crop_type : pyobj)
    (growth_stage : string) (field_capacity : float)
    : result Response * IrrigationDecisionEngine :=
  match build_response now soil_data weather_data crop_type growth_stage field_capacity with
  | Ok response =>
      (Ok response, {| decision_log := decision_log self ++ [response] |})
  | Raise e => (Raise e, self)
  end.

End Engine.

(** ** Readings of the inputs and of the specification *)

(** An instance of the C library's [pow] for exponent 0.5: the correctly
    rounded square root.  The C library agrees with it at the base 5 of
    the runs below, but not at every base. *)
Definition sqrt_pow (x y : float) : float := PrimFloat.sqrt x.



(** The profile [analyze] works with for the crop type [s]. *)
Definition profile_of (s : string) : CropProfile :=
  default generic_crop (CROP_PROFILES !! lower s).

(** The per-growth-stage factor of a profile, 1.0 for an unknown stage. *)
Definition stage_factor (crop : CropProfile) (stage : string) : float :=
  match growth_stage_factor crop !! stage with
  | Some f => f
  | None => 1.0%float
  end.

(** The readings [analyze] extracts from its two dictionaries. *)
Definition soil_moisture_of (soil_data : gmap string float) : float :=
  default 50%float (soil_data !! "soil_moisture").
Definition rain_probability_of (weather_data : gmap string float) : float :=
  default 0%float (weather_data !! "rain_probability").
Definition air_temperature_of (weather_data : gmap string float) : float :=
  default 25%float (weather_data !! "temperature").
Definition humidity_of (weather_data : gmap string float) : float :=
  default 60%float (weather_data !! "humidity").
Definition wind_speed_of (weather_data : gmap string float) : float :=
  default 5%float (weather_data !! "wind_speed").

(** An ordered decision list: [first_match rules d r] holds when [r] is the
    outcome of the first rule of [rules] whose guard holds, or the default
    [d] when no guard holds. *)
Inductive first_match {A : Type} : list (Prop * A) → A → A → Prop :=
| first_match_default d :
    first_match [] d d
| first_match_hit (P : Prop) a rules d :
    P → first_match ((P, a) :: rules) d a
| first_match_skip (P : Prop) a rules d r :
    ¬ P → first_match rules d r → first_match ((P, a) :: rules) d r.

(** The moisture grades, in priority order, for stage factor [f]. *)
Definition moisture_grades (moisture : float) (crop : CropProfile) (f : float)
    : list (Prop * string) :=
  [ ((moisture <? moisture_critical_min crop)%py = true, "CRITICALLY_LOW");
    ((moisture <? moisture_optimal_min crop * f)%py = true, "LOW");
    ((moisture <=? moisture_optimal_max crop * f)%py = true, "OPTIMAL");
    ((moisture <=? moisture_critical_max crop)%py = true, "HIGH") ].

(** The rules of the decision policy, in priority order. *)
Definition decision_rules (moisture_status weather_status : string)
    (rain_prob : float) (alerts : list string) : list (Prop * IrrigationAdvice) :=
  [ (moisture_status = "CRITICALLY_LOW" ∨ moisture_status = "CRITICALLY_HIGH", ALERT);
    ("SENSOR_MALFUNCTION" ∈ alerts, ALERT);
    (weather_status = "HEAVY_RAIN_EXPECTED" ∨ weather_status = "RAIN_LIKELY", HOLD);
    (moisture_status = "OPTIMAL" ∨ moisture_status = "HIGH", HOLD);
    ((rain_prob >? 60%float)%py = true, HOLD);
    (moisture_status = "LOW" ∧ (rain_prob <? 30%float)%py = true, IRRIGATE) ].

(** The qualitative band of an evapotranspiration estimate. *)
Definition loss_band (et_rate : float) : string :=
  if ((3%float <=? et_rate) && (et_rate <=? 7%float))%py then "moderate"
  else if (et_rate <? 3%float)%py then "low" else "high".


(** What [analyze] does on a [str] crop type: it returns a response whose
    fields satisfy [P], or raises a TypeError on a negative wind speed. *)
Definition analyze_outcome (P : Response → Prop) (weather_data : gmap string float)
    (out : result Response * IrrigationDecisionEngine) : Prop :=
  match out.1 with
  | Ok r => P r
  | Raise e => e = TypeError ∧ (wind_speed_of weather_data <? 0%float)%py = true
  end.

(** ** The HTTP callers of the engine *)

(** [l[start:]]: a negative [start] counts from the end, and both ends are
    clamped to the list. *)
Definition py_slice_from {A : Type} (l : list A) (start : Z) : list A :=
  let n := Z.of_nat (length l) in
  let start := if (start <? 0)%Z then Z.max (start + n) 0 else Z.min start n in
  drop (Z.to_nat start) l.

(** [get_decision_history]: [limit_arg] is the [limit] query parameter
    read as an [int], [None] when it is absent or does not parse, so that
    [request.args.get('limit', 10, type=int)] falls back to 10.  The
    result is the pair of the [decisions] and [total] fields. *)
Definition get_decision_history (engine : IrrigationDecisionEngine)
    (limit_arg : option Z) : list Response * nat :=
  let limit := default 10%Z limit_arg in
  (py_slice_from (decision_log engine) (- limit), length (decision_log engine)).

(** A JSON value posted under [soil_data] or [weather_data], as far as the
    endpoint tells values apart: its truth value, and whether it is an
    object.  The readings of an object are floats. *)
Inductive json_arg :=
| JAbsent                           (* the key is absent, or the value is null *)
| JFalsy                            (* false, 0, 0.0, "" or [] *)
| JTruthy                           (* true, a non-zero number, a non-empty string or list *)
| JDict (d : gmap string float).    (* an object *)

(** The JSON object posted to [/api/v1/irrigation/advice]: the three
    optional fields are [None] when the key is absent. *)
Record AdviceRequest := {
  req_soil_data : json_arg;
  req_weather_data : json_arg;
  req_crop_type : option pyobj;
  req_growth_stage : option string;
  req_field_capacity : option float
}.

(** What [request.get_json()] returns: a JSON object, or another JSON
    value (null, a boolean, a number, a string or a list). *)
Inductive RequestBody :=
| JsonObject (data : AdviceRequest)
| JsonOther.

(** The bodies [get_irrigation_advice] answers with. *)
Inductive AdviceBody :=
| Advice (advice : Response)
| MissingFields
| ErrorBody (e : exn) (timestamp : string).

(** [not v]: true on None, false, 0, "", [] and [{}]. *)
Definition py_not (v : json_arg) : bool :=
  match v with
  | JAbsent | JFalsy => true
  | JTruthy => false
  | JDict d => bool_decide (size d = 0)
  end.

Section HttpCallers.

Variable libm_pow : float → float → float.

(** [get_irrigation_advice], from the parsed body on: the answer is a
    body with a status code; the engine is the module-level [engine].
    Every exception is caught and answered with status 500; the clock is
    read once on each path.  A body that is not an object has no [get];
    a [soil_data] or [weather_data] that is not an object has none
    either, and [analyze] raises on it after the crop lookup. *)
Definition get_irrigation_advice (engine : IrrigationDecisionEngine) (now : string)
    (body : RequestBody) : (AdviceBody * Z) * IrrigationDecisionEngine :=
  match body with
  | JsonOther => ((ErrorBody AttributeError now, 500%Z), engine)
  | JsonObject data =>
      if py_not (req_soil_data data) || py_not (req_weather_data data) then
        ((MissingFields, 400%Z), engine)
      else
        match req_soil_data data, req_weather_data data with
        | JDict soil_data, JDict weather_data =>
            match
              analyze libm_pow engine now soil_data weather_data
                (default (PyStr "default") (req_crop_type data))
                (default "vegetative" (req_growth_stage data))
                (default 100.0%float (req_field_capacity data))
            with
            | (Ok advice, engine') => ((Advice advice, 200%Z), engine')
            | (Raise e, engine') => ((ErrorBody e now, 500%Z), engine')
            end
        | _, _ =>
            match lookup_profile (default (PyStr "default") (req_crop_type data)) with
            | Ok _ => ((ErrorBody AttributeError now, 500%Z), engine)
            | Raise e => ((ErrorBody e now, 500%Z), engine)
            end
        end
  end.

End HttpCallers.

(** ** More readings of the inputs *)

Definition ph_of (soil_data : gmap string float) : float :=
  default 6.5%float (soil_data !! "ph").
Definition nitrogen_of (soil_data : gmap string float) : float :=
  default 100%float (soil_data !! "nitrogen").
Definition phosphorus_of (soil_data : gmap string float) : float :=
  default 40%float (soil_data !! "phosphorus").
Definition potassium_of (soil_data : gmap string float) : float :=
  default 150%float (soil_data !! "potassium").
Definition soil_temperature_of (soil_data : gmap string float) : float :=
  default 22%float (soil_data !! "temperature").
Definition rain_amount_of (weather_data : gmap string float) : float :=
  default 0%float (weather_data !! "rain_amount_mm").

(** [[x]] when [c] holds, else the empty list. *)
Definition when {A : Type} (c : bool) (x : A) : list A :=
  if c then [x] else [].

(** The alert tags that the checks of [analyze] append, in order. *)
Definition alert_checks (crop : CropProfile) (soil_data weather_data : gmap string float)
    : list string :=
  (if (soil_moisture_of soil_data <? moisture_critical_min crop)%py
   then ["LOW_MOISTURE"]
   else if (soil_moisture_of soil_data >? moisture_critical_max crop)%py
   then ["HIGH_MOISTURE"] else [])
  ++ when (rain_probability_of weather_data >? 60%float)%py "RAIN_EXPECTED"
  ++ when (nitrogen_of soil_data <? nitrogen_min crop)%py "NUTRIENT_DEFICIENCY"
  ++ when (phosphorus_of soil_data <? phosphorus_min crop)%py "NUTRIENT_DEFICIENCY"
  ++ when (potassium_of soil_data <? potassium_min crop)%py "NUTRIENT_DEFICIENCY"
  ++ when (negb ((ph_optimal_min crop <=? ph_of soil_data)
                 && (ph_of soil_data <=? ph_optimal_max crop)))%py "PH_IMBALANCE"
  ++ when ((soil_temperature_of soil_data <? temp_optimal_min crop)
           || (soil_temperature_of soil_data >? temp_optimal_max crop))%py
       "EXTREME_TEMPERATURE".

(** The reasons that the checks of [analyze] append, in order. *)
Definition reason_checks (crop : CropProfile) (soil_data weather_data : gmap string float)
    : list Reason :=
  (if (soil_moisture_of soil_data <? moisture_critical_min crop)%py
   then [CriticalMoistureMin (soil_moisture_of soil_data) (moisture_critical_min crop)]
   else if (soil_moisture_of soil_data >? moisture_critical_max crop)%py
   then [CriticalMoistureMax (soil_moisture_of soil_data) (moisture_critical_max crop)]
   else [])
  ++ when (rain_probability_of weather_data >? 60%float)%py
       (RainExpected (rain_probability_of weather_data) (rain_amount_of weather_data))
  ++ when (nitrogen_of soil_data <? nitrogen_min crop)%py
       (LowNitrogen (nitrogen_of soil_data) (nitrogen_min crop))
  ++ when (phosphorus_of soil_data <? phosphorus_min crop)%py
       (LowPhosphorus (phosphorus_of soil_data) (phosphorus_min crop))
  ++ when (potassium_of soil_data <? potassium_min crop)%py
       (LowPotassium (potassium_of soil_data) (potassium_min crop))
  ++ when (negb ((ph_optimal_min crop <=? ph_of soil_data)
                 && (ph_of soil_data <=? ph_optimal_max crop)))%py
       (PhImbalance (ph_of soil_data) (ph_optimal_min crop) (ph_optimal_max crop))
  ++ when ((soil_temperature_of soil_data <? temp_optimal_min crop)
           || (soil_temperature_of soil_data >? temp_optimal_max crop))%py
       (SoilTemp (soil_temperature_of soil_data) (temp_optimal_min crop)
          (temp_optimal_max crop)).

(** The position of a moisture grade on the scale from CRITICALLY_LOW to
    CRITICALLY_HIGH. *)
Definition grade_rank (grade : string) : nat :=
  if bool_decide (grade = "CRITICALLY_LOW") then 0
  else if bool_decide (grade = "LOW") then 1
  else if bool_decide (grade = "OPTIMAL") then 2
  else if bool_decide (grade = "HIGH") then 3
  else 4.

(** The reason that reports the recommended irrigation. *)
Definition is_recommendation (reason : Reason) : bool :=
  match reason with
  | RecommendedIrrigation _ _ => true
  | _ => false
  end.

(** ** Order facts on binary64 comparisons *)

Section FloatOrder.

Lemma SFcompare_antisym x y c :
  SFcompare x y = Some c → SFcompare y x = Some (CompOpp c).
Proof.
  destruct x as [sx|sx| |sx mx ex], y as [sy|sy| |sy my ey]; simpl;
    try discriminate; intros [= <-]; try (by destruct sx); try (by destruct sy);
    try (by destruct sx, sy).
  destruct sx, sy; try reflexivity.
  - rewrite (Z.compare_antisym ex ey).
    destruct (ex ?= ey)%Z; simpl; try reflexivity.
    change (Pos.compare_cont Eq ?p ?q) with (Pos.compare p q).
    rewrite (Pos.compare_antisym my mx). by destruct (my ?= mx)%positive.
  - rewrite (Z.compare_antisym ex ey).
    destruct (ex ?= ey)%Z; simpl; try reflexivity.
    change (Pos.compare_cont Eq ?p ?q) with (Pos.compare p q).
    rewrite (Pos.compare_antisym my mx). by destruct (my ?= mx)%positive.
Qed.

Lemma SFcompare_Lt_trans x y z :
  SFcompare x y = Some Lt → SFcompare y z = Some Lt → SFcompare x z = Some Lt.
Proof.
  destruct x as [sx|sx| |sx mx ex], y as [sy|sy| |sy my ey],
    z as [sz|sz| |sz mz ez]; simpl; try discriminate;
    try (destruct sx); try (destruct sy); try (destruct sz);
    try discriminate; try reflexivity.
  all: change (Pos.compare_cont Eq ?p ?q) with (Pos.compare p q).
  all: destruct (Z.compare_spec ex ey), (Z.compare_spec ey ez),
         (Z.compare_spec ex ez); try discriminate; try reflexivity; try lia.
  all: subst.
  all: destruct (Pos.compare_spec mx my), (Pos.compare_spec my mz),
         (Pos.compare_spec mx mz); simpl; try discriminate; try reflexivity; try lia.
Qed.

Local Open Scope py_scope.

Lemma ltb_Lt x y : (x <? y) = true ↔ SFcompare (Prim2SF x) (Prim2SF y) = Some Lt.
Proof.
  rewrite ltb_spec. unfold SFltb.
  destruct (SFcompare _ _) as [[]|]; split; congruence.
Qed.

Lemma leb_not_Gt x y :
  (x <=? y) = true ↔
  SFcompare (Prim2SF x) (Prim2SF y) = Some Lt ∨ SFcompare (Prim2SF x) (Prim2SF y) = Some Eq.
Proof.
  rewrite leb_spec. unfold SFleb.
  destruct (SFcompare _ _) as [[]|]; split; intros; try tauto; try congruence;
    destruct H; congruence.
Qed.

(** [x <= y] excludes [y < x]. *)
Lemma leb_ltb_false x y : (x <=? y) = true → (y <? x) = false.
Proof.
  intros H. apply leb_not_Gt in H.
  destruct (y <? x) eqn:E; [|done].
  apply ltb_Lt, SFcompare_antisym in E. simpl in E.
  destruct H; congruence.
Qed.

(** [x < y] excludes [y <= x]. *)
Lemma ltb_leb_false x y : (x <? y) = true → (y <=? x) = false.
Proof.
  intros H. destruct (y <=? x) eqn:E; [|done].
  apply leb_ltb_false in E. congruence.
Qed.

Lemma ltb_leb x y : (x <? y) = true → (x <=? y) = true.
Proof. intros H. apply leb_not_Gt. left. by apply ltb_Lt. Qed.

Lemma ltb_trans x y z : (x <? y) = true → (y <? z) = true → (x <? z) = true.
Proof. rewrite !ltb_Lt. apply SFcompare_Lt_trans. Qed.

End FloatOrder.

(** ** The classifiers and the decision policy *)

Section Policy.

Local Open Scope py_scope.

Lemma elem_of_pair (x a b : string) : x ∈ [a; b] ↔ x = a ∨ x = b.
Proof. rewrite !elem_of_cons, elem_of_nil. tauto. Qed.

Lemma first_match_functional {A} (rules : list (Prop * A)) d r1 r2 :
  first_match rules d r1 → first_match rules d r2 → r1 = r2.
Proof.
  induction 1; inversion 1; subst; try done; auto.
Qed.

Lemma analyze_moisture_stage_factor moisture crop growth_stage :
  _analyze_moisture moisture crop growth_stage =
  let f := stage_factor crop growth_stage in
  if moisture <? moisture_critical_min crop then "CRITICALLY_LOW"
  else if moisture <? moisture_optimal_min crop * f then "LOW"
  else if moisture <=? moisture_optimal_max crop * f then "OPTIMAL"
  else if moisture <=? moisture_critical_max crop then "HIGH"
  else "CRITICALLY_HIGH".
Proof. reflexivity. Qed.

(** C1: the decision policy is a total function that evaluates the seven
    rules in order, first match wins: ALERT on a critical moisture grade,
    ALERT on a SENSOR_MALFUNCTION alert, HOLD on expected or likely rain,
    HOLD on an OPTIMAL or HIGH grade, HOLD on a rain probability above 60,
    IRRIGATE on a LOW grade with rain probability below 30, else HOLD. *)
Theorem make_decision_first_match (moisture : float) (moisture_status weather_status : string)
    (rain_prob : float) (crop : CropProfile) (alerts : list string) :
  first_match (decision_rules moisture_status weather_status rain_prob alerts) HOLD
    (_make_decision moisture moisture_status weather_status rain_prob crop alerts).
Proof.
  unfold _make_decision, decision_rules, alert_value.
  case_bool_decide as H1; rewrite elem_of_pair in H1.
  { by apply first_match_hit. }
  apply first_match_skip; [done|].
  case_bool_decide as H2.
  { by apply first_match_hit. }
  apply first_match_skip; [done|].
  case_bool_decide as H3; rewrite elem_of_pair in H3.
  { by apply first_match_hit. }
  apply first_match_skip; [done|].
  case_bool_decide as H4; rewrite elem_of_pair in H4.
  { by apply first_match_hit. }
  apply first_match_skip; [done|].
  destruct (rain_prob >? 60%float) eqn:H5.
  { by apply first_match_hit. }
  apply first_match_skip; [done|].
  case_bool_decide as H6; simpl.
  - destruct (rain_prob <? 30%float) eqn:H7.
    + by apply first_match_hit.
    + apply first_match_skip; [|constructor]. intros [_ ?]; done.
  - apply first_match_skip; [|constructor]. intros [? _]; done.
Qed.

(** C2: the moisture classifier returns one of the five grades, the first
    in priority order whose test holds: CRITICALLY_LOW below the critical
    minimum, LOW below optimal_min times the stage factor, OPTIMAL up to
    optimal_max times the stage factor, HIGH up to the critical maximum,
    else CRITICALLY_HIGH; the stage factor is 1.0 for an unknown stage and
    the critical bounds are not multiplied by it. *)
Theorem analyze_moisture_first_match (moisture : float) (crop : CropProfile)
    (growth_stage : string) :
  first_match (moisture_grades moisture crop (stage_factor crop growth_stage))
    "CRITICALLY_HIGH" (_analyze_moisture moisture crop growth_stage)
  ∧ _analyze_moisture moisture crop growth_stage
      ∈ ["CRITICALLY_LOW"; "LOW"; "OPTIMAL"; "HIGH"; "CRITICALLY_HIGH"]
  ∧ (growth_stage_factor crop !! growth_stage = None →
     first_match (moisture_grades moisture crop 1.0%float)
       "CRITICALLY_HIGH" (_analyze_moisture moisture crop growth_stage)).
Proof.
  assert (Hfm : first_match (moisture_grades moisture crop (stage_factor crop growth_stage))
    "CRITICALLY_HIGH" (_analyze_moisture moisture crop growth_stage)).
  { rewrite analyze_moisture_stage_factor. unfold moisture_grades. cbv zeta.
    repeat match goal with
    | |- context [if ?b then _ else _] =>
        destruct b eqn:?;
          [by apply first_match_hit | apply first_match_skip; [congruence|]]
    end.
    constructor. }
  split; [exact Hfm|]. split.
  - rewrite analyze_moisture_stage_factor. cbv zeta.
    repeat match goal with
    | |- context [if ?b then _ else _] => destruct b
    end; rewrite !elem_of_cons; tauto.
  - intros Hnone. unfold stage_factor in Hfm. by rewrite Hnone in Hfm.
Qed.

End Policy.

(** ** The body of [analyze] *)

Section Analyze.

Variable libm_pow : float → float → float.

Local Open Scope py_scope.

Lemma lookup_profile_str s : lookup_profile (PyStr s) = Ok (profile_of s).
Proof. reflexivity. Qed.

Lemma pow_half_complex wind :
  pow_half libm_pow wind = PyComplex → (wind <? 0%float) = true.
Proof.
  unfold pow_half.
  repeat match goal with
  | |- context [if ?b then _ else _] => destruct b eqn:?
  end; done.
Qed.

Lemma pow_half_float wind :
  (wind <? 0%float) = false → ∃ root, pow_half libm_pow wind = PyFloat root.
Proof.
  intros H. destruct (pow_half libm_pow wind) as [root|] eqn:E; [by exists root|].
  apply pow_half_complex in E. congruence.
Qed.


Lemma calculate_et_raise temp humidity wind growth_stage crop e :
  _calculate_et libm_pow temp humidity wind growth_stage crop = Raise e →
  e = TypeError ∧ (wind <? 0%float) = true.
Proof.
  unfold _calculate_et. destruct (pow_half libm_pow wind) as [root|] eqn:E.
  - discriminate.
  - simpl. intros [= <-]. split; [done|]. by apply pow_half_complex.
Qed.

(** One conditional pair of appends to [alerts] and [reasons]: the new
    [alerts] has no SENSOR_MALFUNCTION tag when the old one has none. *)
Ltac step_alerts :=
  match goal with
  | H : context [match (if ?c then ?p else ?q) with (_, _) => _ end] |- _ =>
      let al := fresh "alerts" in
      let rs := fresh "reasons" in
      let E := fresh "E" in
      destruct (if c then p else q) as [al rs] eqn:E;
      assert (alert_value SENSOR_MALFUNCTION ∉ al)
        by (revert E;
            repeat match goal with
            | |- context [if ?b then _ else _] => destruct b
            end;
            intros [= <- <-]; simpl;
            rewrite ?not_elem_of_app, ?not_elem_of_cons;
            repeat split; try assumption; try discriminate;
            apply not_elem_of_nil);
      clear E
  end.

(** What a returned response holds, in terms of the readings of the inputs. *)
Lemma build_response_inv now soil_data weather_data s stage field_capacity r :
  build_response libm_pow now soil_data weather_data (PyStr s) stage field_capacity = Ok r →
  ∃ alerts et,
    (alert_value SENSOR_MALFUNCTION ∉ alerts) ∧
    _calculate_et libm_pow (air_temperature_of weather_data) (humidity_of weather_data)
      (wind_speed_of weather_data) stage (profile_of s) = Ok et ∧
    decision r = advice_value
      (_make_decision (soil_moisture_of soil_data)
         (_analyze_moisture (soil_moisture_of soil_data) (profile_of s) stage)
         (_analyze_weather weather_data) (rain_probability_of weather_data)
         (profile_of s) alerts) ∧
    moisture_status (soil (analysis r)) =
      _analyze_moisture (soil_moisture_of soil_data) (profile_of s) stage ∧
    weather_status (weather (analysis r)) = _analyze_weather weather_data ∧
    daily_et_mm (evapotranspiration (analysis r)) = et ∧
    water_loss_rate (evapotranspiration (analysis r)) = loss_band et ∧
    (decision r = "IRRIGATE" →
       irrigation_amount_mm (recommendations r) =
         ((moisture_optimal_max (profile_of s) - soil_moisture_of soil_data) / 100%float)
         * field_capacity ∧
       irrigation_duration_minutes (recommendations r) =
         (irrigation_amount_mm (recommendations r) / 10.0%float) * 60%float) ∧
    (decision r ≠ "IRRIGATE" →
       irrigation_amount_mm (recommendations r) = 0%float ∧
       irrigation_duration_minutes (recommendations r) = 0%float).
Proof.
  unfold build_response. rewrite lookup_profile_str.
  cbv beta iota zeta delta [mbind result_bind mret result_ret].
  fold (soil_moisture_of soil_data) (rain_probability_of weather_data)
    (air_temperature_of weather_data) (humidity_of weather_data)
    (wind_speed_of weather_data).
  set (crop := profile_of s).
  intros H.
  assert (Hnil : alert_value SENSOR_MALFUNCTION ∉ @nil string) by apply not_elem_of_nil.
  repeat step_alerts.
  destruct (_calculate_et _ _ _ _ _ _) as [et|e]; [|discriminate].
  match type of H with
  | context [_make_decision ?m ?ms ?ws ?rp ?c ?al] =>
      exists al, et; remember (_make_decision m ms ws rp c al) as d eqn:Hd
  end.
  split; [assumption|]. split; [reflexivity|].
  clear Hd. destruct d; simpl in H; injection H as <-; simpl; repeat split; done.
Qed.

(** [build_response] raises only what [_calculate_et] raises. *)
Lemma build_response_raise now soil_data weather_data s stage field_capacity e :
  build_response libm_pow now soil_data weather_data (PyStr s) stage field_capacity = Raise e →
  _calculate_et libm_pow (air_temperature_of weather_data) (humidity_of weather_data)
    (wind_speed_of weather_data) stage (profile_of s) = Raise e.
Proof.
  unfold build_response. rewrite lookup_profile_str.
  cbv beta iota zeta delta [mbind result_bind mret result_ret].
  fold (air_temperature_of weather_data) (humidity_of weather_data)
    (wind_speed_of weather_data).
  repeat match goal with
  | |- context [match (if ?c then ?p else ?q) with (_, _) => _ end] =>
      destruct (if c then p else q) as [? ?]
  end.
  destruct (_calculate_et _ _ _ _ _ _) as [et|e'].
  - by destruct p.
  - by intros [= ->].
Qed.

(** [build_response] returns whenever the wind speed is not negative. *)
Lemma build_response_returns now soil_data weather_data s stage field_capacity :
  (wind_speed_of weather_data <? 0%float) = false →
  ∃ r, build_response libm_pow now soil_data weather_data (PyStr s) stage field_capacity = Ok r.
Proof.
  intros Hwind.
  destruct (build_response _ _ _ _ _ _ _) as [r|e] eqn:E; [by exists r|].
  apply build_response_raise, calculate_et_raise in E as [_ E]. congruence.
Qed.


(** [analyze] in terms of [build_response]. *)
Lemma analyze_ok self now soil_data weather_data crop_type stage field_capacity r self' :
  analyze libm_pow self now soil_data weather_data crop_type stage field_capacity = (Ok r, self') ↔
  build_response libm_pow now soil_data weather_data crop_type stage field_capacity = Ok r
  ∧ self' = {| decision_log := decision_log self ++ [r] |}.
Proof.
  unfold analyze. destruct (build_response _ _ _ _ _ _ _) as [r0|e]; split.
  - by intros [= -> <-].
  - by intros [[= ->] ->].
  - discriminate.
  - by intros [? _].
Qed.

Lemma advice_value_inj a b : advice_value a = advice_value b → a = b.
Proof. by destruct a, b. Qed.

(** The policy reads [alerts] only through the SENSOR_MALFUNCTION tag. *)
Lemma make_decision_no_sensor moisture moisture_status weather_status rain_prob crop alerts :
  alert_value SENSOR_MALFUNCTION ∉ alerts →
  _make_decision moisture moisture_status weather_status rain_prob crop alerts =
  _make_decision moisture moisture_status weather_status rain_prob crop [].
Proof.
  intros H. unfold _make_decision.
  rewrite (bool_decide_eq_false_2 _ H).
  by rewrite (bool_decide_eq_false_2 _ (not_elem_of_nil (alert_value SENSOR_MALFUNCTION))).
Qed.

Lemma analyze_outcome_intro (P : Response → Prop) self now soil_data weather_data s
    stage field_capacity :
  (∀ r, build_response libm_pow now soil_data weather_data (PyStr s) stage field_capacity = Ok r
        → P r) →
  analyze_outcome P weather_data
    (analyze libm_pow self now soil_data weather_data (PyStr s) stage field_capacity).
Proof.
  intros HP. unfold analyze_outcome, analyze.
  destruct (build_response _ _ _ _ _ _ _) as [r|e] eqn:E; simpl.
  - by apply HP.
  - by apply build_response_raise, calculate_et_raise in E.
Qed.

(** ** Moisture grades and the decision *)

(** C5: a moisture strictly below the crop's critical minimum is graded
    CRITICALLY_LOW and the policy answers ALERT, whatever the weather
    status, rain probability, alerts and the other inputs of [analyze]
    are; a response [analyze] returns carries that grade and decision. *)
Theorem critically_low_alert (moisture : float) (crop : CropProfile) (stage : string) :
  (moisture <? moisture_critical_min crop) = true →
  _analyze_moisture moisture crop stage = "CRITICALLY_LOW"
  ∧ (∀ weather_status rain_prob alerts,
       _make_decision moisture (_analyze_moisture moisture crop stage)
         weather_status rain_prob crop alerts = ALERT)
  ∧ (∀ self now soil_data weather_data s field_capacity,
       soil_moisture_of soil_data = moisture → profile_of s = crop →
       analyze_outcome
         (λ r, moisture_status (soil (analysis r)) = "CRITICALLY_LOW"
               ∧ decision r = "ALERT")
         weather_data
         (analyze libm_pow self now soil_data weather_data (PyStr s) stage field_capacity)).
Proof.
  intros Hlow.
  assert (Hgrade : _analyze_moisture moisture crop stage = "CRITICALLY_LOW").
  { unfold _analyze_moisture. by rewrite Hlow. }
  split; [exact Hgrade|]. split.
  - intros ws rp alerts. by rewrite Hgrade.
  - intros self now soil_data weather_data s fc Hm Hcrop.
    apply analyze_outcome_intro. intros r Hr.
    apply build_response_inv in Hr as (alerts & et & _ & _ & Hd & Hms & _).
    rewrite Hm, Hcrop, Hgrade in Hd, Hms. by split.
Qed.

(** C3 (amended): a moisture that is at least the crop's critical minimum
    and lies between the stage-adjusted optimal bounds is graded OPTIMAL,
    and the policy answers HOLD unless a SENSOR_MALFUNCTION alert is
    present; a response [analyze] returns carries OPTIMAL and HOLD. *)
Theorem optimal_range_hold (moisture : float) (crop : CropProfile) (stage : string) :
  (moisture_critical_min crop <=? moisture) = true →
  (moisture_optimal_min crop * stage_factor crop stage <=? moisture) = true →
  (moisture <=? moisture_optimal_max crop * stage_factor crop stage) = true →
  _analyze_moisture moisture crop stage = "OPTIMAL"
  ∧ (∀ weather_status rain_prob alerts,
       "SENSOR_MALFUNCTION" ∉ alerts →
       _make_decision moisture (_analyze_moisture moisture crop stage)
         weather_status rain_prob crop alerts = HOLD)
  ∧ (∀ self now soil_data weather_data s field_capacity,
       soil_moisture_of soil_data = moisture → profile_of s = crop →
       analyze_outcome
         (λ r, moisture_status (soil (analysis r)) = "OPTIMAL" ∧ decision r = "HOLD")
         weather_data
         (analyze libm_pow self now soil_data weather_data (PyStr s) stage field_capacity)).
Proof.
  intros Hcrit Hmin Hmax.
  assert (Hgrade : _analyze_moisture moisture crop stage = "OPTIMAL").
  { rewrite analyze_moisture_stage_factor. cbv zeta.
    by rewrite (leb_ltb_false _ _ Hcrit), (leb_ltb_false _ _ Hmin), Hmax. }
  assert (Hhold : ∀ weather_status rain_prob alerts,
    "SENSOR_MALFUNCTION" ∉ alerts →
    _make_decision moisture "OPTIMAL" weather_status rain_prob crop alerts = HOLD).
  { intros ws rp alerts Hno. unfold _make_decision.
    rewrite (bool_decide_eq_false_2 _ Hno).
    by destruct (bool_decide (ws ∈ _)). }
  split; [exact Hgrade|]. split.
  - intros ws rp alerts Hno. rewrite Hgrade. by apply Hhold.
  - intros self now soil_data weather_data s fc Hm Hcrop.
    apply analyze_outcome_intro. intros r Hr.
    apply build_response_inv in Hr as (alerts & et & Hno & _ & Hd & Hms & _).
    rewrite Hm, Hcrop, Hgrade in Hd, Hms. split; [done|].
    rewrite Hd. by rewrite Hhold.
Qed.

(** ** Irrigation quantities *)

(** C6: in a returned response the irrigation amount and duration are 0
    when the decision is not IRRIGATE; when it is IRRIGATE, the amount is
    ((optimal_max - moisture) / 100) * field_capacity and the duration is
    (amount / 10) * 60.  With soil moisture 50, crop tomato, stage
    vegetative, rain probability 20 and field capacity 100 the grade is
    LOW, the decision IRRIGATE, the amount 30 and the duration 180. *)
Theorem irrigation_quantities (self : IrrigationDecisionEngine) (now : string)
    (soil_data weather_data : gmap string float) (s stage : string) (field_capacity : float) :
  analyze_outcome
    (λ r,
       (decision r ≠ "IRRIGATE" →
          irrigation_amount_mm (recommendations r) = 0%float
          ∧ irrigation_duration_minutes (recommendations r) = 0%float)
       ∧ (decision r = "IRRIGATE" →
          irrigation_amount_mm (recommendations r) =
            ((moisture_optimal_max (profile_of s) - soil_moisture_of soil_data) / 100%float)
            * field_capacity
          ∧ irrigation_duration_minutes (recommendations r) =
            (irrigation_amount_mm (recommendations r) / 10%float) * 60%float))
    weather_data
    (analyze libm_pow self now soil_data weather_data (PyStr s) stage field_capacity)
  ∧ (soil_data !! "soil_moisture" = Some 50%float →
     weather_data !! "rain_probability" = Some 20%float →
     (wind_speed_of weather_data <? 0%float) = false →
     ∃ r, (analyze libm_pow self now soil_data weather_data (PyStr "tomato")
             "vegetative" 100%float).1 = Ok r
          ∧ moisture_status (soil (analysis r)) = "LOW"
          ∧ decision r = "IRRIGATE"
          ∧ irrigation_amount_mm (recommendations r) = 30%float
          ∧ irrigation_duration_minutes (recommendations r) = 180%float).
Proof.
  split.
  - apply analyze_outcome_intro. intros r Hr.
    apply build_response_inv in Hr as (alerts & et & _ & _ & _ & _ & _ & _ & _ & Hirr & Hno).
    by split.
  - intros Hm Hrain Hwind.
    destruct (build_response_returns now soil_data weather_data "tomato" "vegetative"
                100%float Hwind) as [r Hr].
    exists r. unfold analyze. rewrite Hr. split; [done|].
    apply build_response_inv in Hr
      as (alerts & et & Hsensor & _ & Hd & Hms & _ & _ & _ & Hirr & _).
    assert (Hm' : soil_moisture_of soil_data = 50%float)
      by (unfold soil_moisture_of; by rewrite Hm).
    assert (Hgrade : _analyze_moisture (soil_moisture_of soil_data)
                       (profile_of "tomato") "vegetative" = "LOW")
      by (by rewrite Hm').
    assert (Hdec : decision r = "IRRIGATE").
    { rewrite Hd, Hgrade, make_decision_no_sensor by done.
      unfold _make_decision, _analyze_weather, rain_probability_of.
      rewrite Hrain. simpl default.
      change (20%float >? 70%float) with false.
      change (20%float >? 40%float) with false.
      change (20%float >? 60%float) with false.
      change (20%float <? 30%float) with true.
      cbv iota.
      destruct (_ >? 35%float); [reflexivity|].
      destruct (_ <? 5%float); reflexivity. }
    destruct (Hirr Hdec) as [Hamt Hdur].
    rewrite Hm' in Hamt. rewrite Hamt in Hdur.
    repeat split; [by rewrite Hms, Hgrade | exact Hdec | by rewrite Hamt | by rewrite Hdur].
Qed.


(** ** Evapotranspiration *)







(** A rain probability below 30 is above no threshold from 30 up. *)
Lemma below_30_not_above rain_prob threshold :
  (rain_prob <? 30%float) = true → (30%float <=? threshold) = true →
  (rain_prob >? threshold) = false.
Proof.
  intros Hlt Hle. unfold gtb. destruct (threshold <? rain_prob) eqn:E; [|done].
  pose proof (ltb_trans _ _ _ E Hlt) as Habs.
  apply leb_ltb_false in Hle. congruence.
Qed.

(** C9: the irrigation amount can be negative.  For maize at tasseling the
    stage-adjusted optimal minimum (77) exceeds the unadjusted optimal
    maximum (75); with soil moisture 76 and a rain probability below 30
    the decision is IRRIGATE and both the amount and the duration of the
    returned response are strictly negative. *)
Theorem negative_irrigation_amount (self : IrrigationDecisionEngine) (now : string)
    (rain_prob : float) :
  (rain_prob <? 30%float) = true →
  (moisture_optimal_max maize <? moisture_optimal_min maize * stage_factor maize "tasseling")
    = true
  ∧ ∃ r, (analyze libm_pow self now {[ "soil_moisture" := 76%float ]}
            {[ "rain_probability" := rain_prob ]} (PyStr "maize") "tasseling"
            100%float).1 = Ok r
         ∧ moisture_status (soil (analysis r)) = "LOW"
         ∧ decision r = "IRRIGATE"
         ∧ (irrigation_amount_mm (recommendations r) <? 0%float) = true
         ∧ (irrigation_duration_minutes (recommendations r) <? 0%float) = true.
Proof.
  intros Hrain. split; [reflexivity|].
  set (soil_data := {[ "soil_moisture" := 76%float ]} : gmap string float).
  set (weather_data := {[ "rain_probability" := rain_prob ]} : gmap string float).
  assert (Hwind : (wind_speed_of weather_data <? 0%float) = false) by reflexivity.
  destruct (build_response_returns now soil_data weather_data "maize" "tasseling"
              100%float Hwind) as [r Hr].
  exists r. unfold analyze. rewrite Hr. split; [done|].
  apply build_response_inv in Hr
    as (alerts & et & Hsensor & _ & Hd & Hms & _ & _ & _ & Hirr & _).
  change (soil_moisture_of soil_data) with 76%float in *.
  change (profile_of "maize") with maize in *.
  change (_analyze_moisture 76%float maize "tasseling") with "LOW" in *.
  assert (Hrp : rain_probability_of weather_data = rain_prob).
  { unfold rain_probability_of, weather_data. by rewrite lookup_singleton_eq. }
  assert (Htemp : weather_data !! "temperature" = None).
  { unfold weather_data. by rewrite lookup_singleton_ne. }
  assert (Hdec : decision r = "IRRIGATE").
  { rewrite Hd, make_decision_no_sensor by done.
    unfold _make_decision, _analyze_weather.
    fold (rain_probability_of weather_data). rewrite Hrp, Htemp. simpl default.
    rewrite !(below_30_not_above rain_prob) by done.
    change (25%float >? 35%float) with false.
    change (25%float <? 5%float) with false.
    cbv iota. by rewrite Hrain. }
  destruct (Hirr Hdec) as [Hamt Hdur]. rewrite Hamt in Hdur.
  repeat split; [exact Hms | exact Hdec | by rewrite Hamt | by rewrite Hdur].
Qed.

(** ** The decision log *)

(** C10 (amended): a call to [analyze] that returns appends the returned
    record, and nothing else, at the end of the log: the length grows by
    one and the earlier entries are unchanged; a call that raises leaves
    the log as it was. *)
Theorem analyze_appends_to_log (self : IrrigationDecisionEngine) (now : string)
    (soil_data weather_data : gmap string float) (crop_type : pyobj) (stage : string)
    (field_capacity : float) :
  match analyze libm_pow self now soil_data weather_data crop_type stage field_capacity with
  | (Ok r, self') =>
      decision_log self' = decision_log self ++ [r]
      ∧ length (decision_log self') = S (length (decision_log self))
      ∧ (∀ i record, decision_log self !! i = Some record →
                     decision_log self' !! i = Some record)
      ∧ last (decision_log self') = Some r
  | (Raise e, self') => self' = self
  end.
Proof.
  unfold analyze.
  destruct (build_response _ _ _ _ _ _ _) as [r|e]; [|reflexivity].
  simpl. split; [reflexivity|]. split; [|split].
  - rewrite length_app. simpl. lia.
  - intros i record Hi. by apply lookup_app_l_Some.
  - apply last_snoc.
Qed.

End Analyze.

(** Scenario A: tomato at moisture 25, default weather. *)
Lemma critically_low_alert_tomato :
  (25%float <? moisture_critical_min tomato)%py = true
  ∧ _analyze_moisture 25%float tomato "vegetative" = "CRITICALLY_LOW"
  ∧ _make_decision 25%float (_analyze_moisture 25%float tomato "vegetative")
      "NORMAL" 0%float tomato [] = ALERT
  ∧ analyze_outcome
      (λ r, moisture_status (soil (analysis r)) = "CRITICALLY_LOW" ∧ decision r = "ALERT")
      ∅
      (analyze sqrt_pow init "" {[ "soil_moisture" := 25%float ]} ∅
         (PyStr "tomato") "vegetative" 100%float).
Proof.
  destruct (critically_low_alert sqrt_pow 25%float tomato "vegetative" eq_refl)
    as (Hgrade & Hpolicy & Hanalyze).
  split; [reflexivity|]. split; [exact Hgrade|]. split; [apply Hpolicy|].
  apply Hanalyze; reflexivity.
Defined.

(** C3, as stated, fails: potato at planting has stage-adjusted optimal
    bounds 32.5 and 42.5, below its critical minimum 45; moisture 40 lies
    between them and is graded CRITICALLY_LOW, and the decision is ALERT. *)
Lemma optimal_range_potato_planting :
  (moisture_optimal_min potato * stage_factor potato "planting" <=? 40%float)%py = true
  ∧ (40%float <=? moisture_optimal_max potato * stage_factor potato "planting")%py = true
  ∧ _analyze_moisture 40%float potato "planting" = "CRITICALLY_LOW"
  ∧ _make_decision 40%float (_analyze_moisture 40%float potato "planting")
      "NORMAL" 0%float potato [] = ALERT
  ∧ ∃ r, (analyze sqrt_pow init "" {[ "soil_moisture" := 40%float ]} ∅
            (PyStr "potato") "planting" 100%float).1 = Ok r
         ∧ moisture_status (soil (analysis r)) = "CRITICALLY_LOW"
         ∧ decision r = "ALERT".
Proof.
  repeat split; try (vm_compute; reflexivity).
  eexists. repeat split; vm_compute; reflexivity.
Defined.

(** Lettuce in its vegetative stage at moisture 75, default weather. *)
Lemma optimal_range_hold_lettuce :
  (moisture_critical_min lettuce <=? 75%float)%py = true
  ∧ (moisture_optimal_min lettuce * stage_factor lettuce "vegetative" <=? 75%float)%py = true
  ∧ (75%float <=? moisture_optimal_max lettuce * stage_factor lettuce "vegetative")%py = true
  ∧ _analyze_moisture 75%float lettuce "vegetative" = "OPTIMAL"
  ∧ _make_decision 75%float (_analyze_moisture 75%float lettuce "vegetative")
      "NORMAL" 0%float lettuce [] = HOLD
  ∧ analyze_outcome
      (λ r, moisture_status (soil (analysis r)) = "OPTIMAL" ∧ decision r = "HOLD")
      ∅
      (analyze sqrt_pow init "" {[ "soil_moisture" := 75%float ]} ∅
         (PyStr "lettuce") "vegetative" 100%float).
Proof.
  destruct (optimal_range_hold sqrt_pow 75%float lettuce "vegetative"
              eq_refl eq_refl eq_refl) as (Hgrade & Hpolicy & Hanalyze).
  split; [reflexivity|]. split; [reflexivity|]. split; [reflexivity|].
  split; [exact Hgrade|]. split; [apply Hpolicy, not_elem_of_nil|].
  apply Hanalyze; reflexivity.
Defined.

(** ** Crop-profile lookup *)

Section CropLookup.

Lemma crop_profiles_keys k p :
  CROP_PROFILES !! k = Some p →
  (k, p) ∈ [("tomato", tomato); ("maize", maize); ("potato", potato);
            ("lettuce", lettuce); ("default", generic_crop)].
Proof. apply elem_of_list_to_map_2. Qed.

(** The keys of the table are their own lower-casing. *)
Lemma crop_profiles_keys_lower k p : CROP_PROFILES !! k = Some p → lower k = k.
Proof.
  intros H. apply crop_profiles_keys in H.
  rewrite !elem_of_cons, elem_of_nil in H.
  destruct H as [H|[H|[H|[H|[H|[]]]]]]; by injection H as -> _.
Qed.

(** C4 (amended): on every crop-type string the lookup returns a profile
    and cannot fail; the match against the table ignores case, and a
    string that matches no key, the empty string included, gives the
    default profile.  None is not a string: its [lower] raises. *)
Theorem lookup_profile_total (s : string) :
  ∃ p, lookup_profile (PyStr s) = Ok p
       ∧ (∀ k q, CROP_PROFILES !! k = Some q → lower s = lower k → p = q)
       ∧ (CROP_PROFILES !! lower s = None → p = generic_crop)
       ∧ (∀ s', lower s' = lower s → lookup_profile (PyStr s') = Ok p)
       ∧ lookup_profile (PyStr "") = Ok generic_crop.
Proof.
  exists (profile_of s). split; [reflexivity|]. split; [|split; [|split]].
  - intros k q Hk Hs. unfold profile_of.
    rewrite Hs, (crop_profiles_keys_lower k q Hk), Hk. reflexivity.
  - intros Hnone. unfold profile_of. by rewrite Hnone.
  - intros s' Hs'. rewrite lookup_profile_str. unfold profile_of. by rewrite Hs'.
  - reflexivity.
Qed.

End CropLookup.

(** C4, as stated, fails on None: [None.lower()] raises AttributeError,
    and so does [analyze], which leaves the log untouched. *)
Lemma lookup_profile_none :
  lookup_profile PyNone = Raise AttributeError
  ∧ analyze sqrt_pow init "" ∅ ∅ PyNone "vegetative" 100%float
    = (Raise AttributeError, init).
Proof. split; reflexivity. Defined.

(** C10, as stated, fails on a call that raises: with wind speed -4 the
    power [wind ** 0.5] is complex, [max(0, _)] raises TypeError, and no
    record is appended; the log is as long as before the call. *)
Lemma analyze_raise_keeps_log :
  analyze sqrt_pow init "" ∅ {[ "wind_speed" := (-4)%float ]} (PyStr "tomato")
    "vegetative" 100%float = (Raise TypeError, init)
  ∧ length (decision_log
      (analyze sqrt_pow init "" ∅ {[ "wind_speed" := (-4)%float ]} (PyStr "tomato")
         "vegetative" 100%float).2) = length (decision_log init).
Proof. split; vm_compute; reflexivity. Defined.

(** ** Concrete runs *)

(** Scenario B: tomato, vegetative, moisture 50, rain probability 20,
    field capacity 100, the other readings at their defaults. *)
Lemma irrigation_quantities_scenario_B :
  analyze_outcome
    (λ r,
       (decision r ≠ "IRRIGATE" →
          irrigation_amount_mm (recommendations r) = 0%float
          ∧ irrigation_duration_minutes (recommendations r) = 0%float)
       ∧ (decision r = "IRRIGATE" →
          irrigation_amount_mm (recommendations r) =
            ((moisture_optimal_max tomato - 50%float) / 100%float * 100%float)%py
          ∧ irrigation_duration_minutes (recommendations r) =
            (irrigation_amount_mm (recommendations r) / 10%float * 60%float)%py))
    {[ "rain_probability" := 20%float ]}
    (analyze sqrt_pow init "" {[ "soil_moisture" := 50%float ]}
       {[ "rain_probability" := 20%float ]} (PyStr "tomato") "vegetative" 100%float)
  ∧ ∃ r, (analyze sqrt_pow init "" {[ "soil_moisture" := 50%float ]}
            {[ "rain_probability" := 20%float ]} (PyStr "tomato") "vegetative"
            100%float).1 = Ok r
         ∧ moisture_status (soil (analysis r)) = "LOW"
         ∧ decision r = "IRRIGATE"
         ∧ irrigation_amount_mm (recommendations r) = 30%float
         ∧ irrigation_duration_minutes (recommendations r) = 180%float.
Proof.
  destruct (irrigation_quantities sqrt_pow init "" {[ "soil_moisture" := 50%float ]}
              {[ "rain_probability" := 20%float ]} "tomato" "vegetative" 100%float)
    as [Hgeneral Hscenario].
  split.
  - exact Hgeneral.
  - apply Hscenario; reflexivity.
Defined.




(** Maize at tasseling, moisture 76, rain probability 20. *)
Lemma negative_irrigation_amount_maize :
  (20%float <? 30%float)%py = true
  ∧ (moisture_optimal_max maize <? moisture_optimal_min maize * stage_factor maize "tasseling")%py
    = true
  ∧ ∃ r, (analyze sqrt_pow init "" {[ "soil_moisture" := 76%float ]}
            {[ "rain_probability" := 20%float ]} (PyStr "maize") "tasseling"
            100%float).1 = Ok r
         ∧ moisture_status (soil (analysis r)) = "LOW"
         ∧ decision r = "IRRIGATE"
         ∧ (irrigation_amount_mm (recommendations r) <? 0%float)%py = true
         ∧ (irrigation_duration_minutes (recommendations r) <? 0%float)%py = true.
Proof.
  split; [reflexivity|].
  apply (negative_irrigation_amount sqrt_pow init "" 20%float). reflexivity.
Defined.

(** ** More order facts on binary64 comparisons *)

Section FloatOrderEq.

Local Open Scope py_scope.

(** Floats that compare equal compare alike with any third float. *)
Lemma SFcompare_Eq_l x y z :
  SFcompare x y = Some Eq → SFcompare x z = SFcompare y z.
Proof.
  destruct x as [sx|sx| |sx mx ex], y as [sy|sy| |sy my ey]; simpl;
    try discriminate; try (destruct sx; discriminate); try (destruct sy; discriminate).
  - by destruct z.
  - destruct sx, sy; try discriminate; reflexivity.
  - destruct sx, sy; try discriminate;
      change (Pos.compare_cont Eq ?p ?q) with (Pos.compare p q);
      destruct (Z.compare_spec ex ey); try discriminate;
      destruct (Pos.compare_spec mx my); try discriminate; by subst.
Qed.

Lemma SFcompare_Eq_r x y z :
  SFcompare x y = Some Eq → SFcompare z x = SFcompare z y.
Proof.
  intros H. pose proof (SFcompare_Eq_l x y z H) as Hl.
  destruct (SFcompare z x) as [c|] eqn:E1, (SFcompare z y) as [c'|] eqn:E2;
    try reflexivity.
  - apply SFcompare_antisym in E1, E2. rewrite Hl, E2 in E1.
    injection E1 as E1. by destruct c, c'.
  - apply SFcompare_antisym in E1. rewrite Hl in E1.
    destruct (SFcompare y z) as [c'|] eqn:E3; [|discriminate].
    apply SFcompare_antisym in E3. congruence.
  - apply SFcompare_antisym in E2. rewrite <- Hl in E2.
    destruct (SFcompare x z) as [c|] eqn:E3; [|discriminate].
    apply SFcompare_antisym in E3. congruence.
Qed.

Lemma leb_ltb_trans x y z : (x <=? y) = true → (y <? z) = true → (x <? z) = true.
Proof.
  intros Hxy Hyz. apply leb_not_Gt in Hxy as [H|H]; apply ltb_Lt in Hyz; apply ltb_Lt.
  - by apply (SFcompare_Lt_trans _ _ _ H).
  - by rewrite (SFcompare_Eq_l _ _ _ H).
Qed.

Lemma ltb_leb_trans x y z : (x <? y) = true → (y <=? z) = true → (x <? z) = true.
Proof.
  intros Hxy Hyz. apply leb_not_Gt in Hyz as [H|H]; apply ltb_Lt in Hxy; apply ltb_Lt.
  - by apply (SFcompare_Lt_trans _ _ _ Hxy).
  - by rewrite <- (SFcompare_Eq_r _ _ _ H).
Qed.

Lemma leb_trans x y z : (x <=? y) = true → (y <=? z) = true → (x <=? z) = true.
Proof.
  intros Hxy Hyz. pose proof Hxy as Hxy'. apply leb_not_Gt in Hxy' as [H|H].
  - apply ltb_leb. apply (ltb_leb_trans x y z); [by apply ltb_Lt | done].
  - apply leb_not_Gt. rewrite (SFcompare_Eq_l _ _ _ H). by apply leb_not_Gt.
Qed.

(** A float below another one is not a NaN. *)
Lemma ltb_not_nan x y : (x <? y) = true → PrimFloat.is_nan x = false.
Proof.
  intros H. apply ltb_Lt in H. unfold PrimFloat.is_nan.
  rewrite FloatAxioms.eqb_spec. unfold SFeqb.
  destruct (Prim2SF x) as [s|s| |s m e]; try discriminate; simpl.
  - reflexivity.
  - by destruct s.
  - destruct s; rewrite Z.compare_refl;
      change (Pos.compare_cont Eq ?p ?q) with (Pos.compare p q);
      by rewrite Pos.compare_refl.
Qed.

Lemma ltb_not_eqb x y : (x <? y) = true → PrimFloat.eqb x y = false.
Proof.
  intros H. apply ltb_Lt in H. rewrite FloatAxioms.eqb_spec. unfold SFeqb. by rewrite H.
Qed.

End FloatOrderEq.

(** ** The fields of a returned response *)

Section Response.

Variable libm_pow : float → float → float.

Local Open Scope py_scope.

Lemma pair_if_inv {A B} (c : bool) (p q : A * B) a b :
  (if c then p else q) = (a, b) →
  a = (if c then p.1 else q.1) ∧ b = (if c then p.2 else q.2).
Proof. by destruct c; intros ->. Qed.

Lemma fst_if {A B} (c : bool) (p q : A * B) :
  (if c then p else q).1 = if c then p.1 else q.1.
Proof. by destruct c. Qed.

Lemma snd_if {A B} (c : bool) (p q : A * B) :
  (if c then p else q).2 = if c then p.2 else q.2.
Proof. by destruct c. Qed.

Lemma if_app_when {A} (c : bool) (l : list A) x :
  (if c then l ++ [x] else l) = l ++ when c x.
Proof. destruct c; simpl; [done|by rewrite app_nil_r]. Qed.

(** One conditional pair of appends, as an equation on the two lists. *)
Ltac step_lists H :=
  match type of H with
  | context [match (if ?c then ?p else ?q) with (_, _) => _ end] =>
      let al := fresh "alerts" in
      let rs := fresh "reasons" in
      let E := fresh "E" in
      destruct (if c then p else q) as [al rs] eqn:E;
      apply pair_if_inv in E; rewrite ?fst_if, ?snd_if in E; cbn [fst snd app] in E;
      rewrite ?if_app_when in E; destruct E as [-> ->]
  end.

(** The fields of a returned response, in terms of the readings. *)
Lemma build_response_fields now soil_data weather_data s stage field_capacity r :
  build_response libm_pow now soil_data weather_data (PyStr s) stage field_capacity = Ok r →
  ∃ d,
    d = _make_decision (soil_moisture_of soil_data)
          (_analyze_moisture (soil_moisture_of soil_data) (profile_of s) stage)
          (_analyze_weather weather_data) (rain_probability_of weather_data)
          (profile_of s) (alert_checks (profile_of s) soil_data weather_data)
    ∧ decision r = advice_value d
    ∧ alerts r = list_to_set (alert_checks (profile_of s) soil_data weather_data)
    ∧ reasons r =
        reason_checks (profile_of s) soil_data weather_data
        ++ when (bool_decide (d = IRRIGATE))
             (RecommendedIrrigation (irrigation_amount_mm (recommendations r))
                (irrigation_duration_minutes (recommendations r)))
    ∧ moisture_status (soil (analysis r)) =
        _analyze_moisture (soil_moisture_of soil_data) (profile_of s) stage
    ∧ weather_status (weather (analysis r)) = _analyze_weather weather_data
    ∧ rain_probability (weather (analysis r)) = rain_probability_of weather_data
    ∧ nutrient_status (nutrients (soil (analysis r))) =
        _analyze_nutrients (nitrogen_of soil_data) (phosphorus_of soil_data)
          (potassium_of soil_data) (profile_of s)
    ∧ next_check_hours (recommendations r) =
        _next_check_interval d (_analyze_weather weather_data).
Proof.
  unfold build_response. rewrite lookup_profile_str.
  cbv beta iota zeta delta [mbind result_bind mret result_ret].
  fold (soil_moisture_of soil_data) (rain_probability_of weather_data)
    (air_temperature_of weather_data) (humidity_of weather_data)
    (wind_speed_of weather_data) (ph_of soil_data) (nitrogen_of soil_data)
    (phosphorus_of soil_data) (potassium_of soil_data) (soil_temperature_of soil_data)
    (rain_amount_of weather_data).
  set (crop := profile_of s).
  intros H.
  do 7 step_lists H.
  destruct (_calculate_et _ _ _ _ _ _) as [et|e]; [|discriminate].
  match type of H with
  | context [_make_decision _ _ _ _ _ ?al] =>
      replace al with (alert_checks crop soil_data weather_data) in H
        by (unfold alert_checks; by rewrite <- !app_assoc)
  end.
  match type of H with
  | context [?rs ++ [RecommendedIrrigation _ _]] =>
      replace rs with (reason_checks crop soil_data weather_data) in H
        by (unfold reason_checks; by rewrite <- !app_assoc)
  end.
  eexists. split; [reflexivity|].
  destruct (bool_decide (_ = IRRIGATE)); simpl in H; injection H as <-; simpl;
    rewrite ?app_nil_r; repeat split; reflexivity.
Qed.

Lemma elem_of_when {A} (c : bool) (x t : A) : t ∈ when c x ↔ c = true ∧ t = x.
Proof.
  destruct c; simpl.
  - rewrite list_elem_of_singleton. split; [by intros -> | by intros [_ ?]].
  - rewrite elem_of_nil. split; [done | by intros [? _]].
Qed.

Lemma length_when {A} (c : bool) (x : A) : length (when c x) = if c then 1 else 0.
Proof. by destruct c. Qed.

(** The tags of [alert_checks], check by check. *)
Lemma elem_of_alert_checks crop soil_data weather_data t :
  t ∈ alert_checks crop soil_data weather_data ↔
    (t = "LOW_MOISTURE"
     ∧ (soil_moisture_of soil_data <? moisture_critical_min crop) = true)
    ∨ (t = "HIGH_MOISTURE"
       ∧ (soil_moisture_of soil_data <? moisture_critical_min crop) = false
       ∧ (soil_moisture_of soil_data >? moisture_critical_max crop) = true)
    ∨ (t = "RAIN_EXPECTED" ∧ (rain_probability_of weather_data >? 60%float) = true)
    ∨ (t = "NUTRIENT_DEFICIENCY"
       ∧ ((nitrogen_of soil_data <? nitrogen_min crop) = true
          ∨ (phosphorus_of soil_data <? phosphorus_min crop) = true
          ∨ (potassium_of soil_data <? potassium_min crop) = true))
    ∨ (t = "PH_IMBALANCE"
       ∧ ((ph_optimal_min crop <=? ph_of soil_data)
          && (ph_of soil_data <=? ph_optimal_max crop)) = false)
    ∨ (t = "EXTREME_TEMPERATURE"
       ∧ ((soil_temperature_of soil_data <? temp_optimal_min crop) = true
          ∨ (soil_temperature_of soil_data >? temp_optimal_max crop) = true)).
Proof.
  unfold alert_checks.
  rewrite !elem_of_app, !elem_of_when, negb_true_iff, orb_true_iff.
  assert (Hmoist :
    t ∈ (if soil_moisture_of soil_data <? moisture_critical_min crop
         then ["LOW_MOISTURE"]
         else if soil_moisture_of soil_data >? moisture_critical_max crop
              then ["HIGH_MOISTURE"] else []) ↔
    (t = "LOW_MOISTURE"
     ∧ (soil_moisture_of soil_data <? moisture_critical_min crop) = true)
    ∨ (t = "HIGH_MOISTURE"
       ∧ (soil_moisture_of soil_data <? moisture_critical_min crop) = false
       ∧ (soil_moisture_of soil_data >? moisture_critical_max crop) = true)).
  { destruct (_ <? _), (_ >? _);
      rewrite ?list_elem_of_singleton, ?elem_of_nil; intuition discriminate. }
  rewrite Hmoist. tauto.
Qed.

Lemma sensor_not_in_alert_checks crop soil_data weather_data :
  alert_value SENSOR_MALFUNCTION ∉ alert_checks crop soil_data weather_data.
Proof.
  rewrite elem_of_alert_checks. simpl.
  intros [[? _]|[[? _]|[[? _]|[[? _]|[[? _]|[? _]]]]]]; discriminate.
Qed.

(** X1: the alert set of a returned response holds exactly the tags of the
    checks that fired: LOW_MOISTURE below the critical minimum, otherwise
    HIGH_MOISTURE above the critical maximum, RAIN_EXPECTED above a rain
    probability of 60, NUTRIENT_DEFICIENCY when any of the three nutrients
    is below its minimum, PH_IMBALANCE outside the optimal pH range,
    EXTREME_TEMPERATURE outside the optimal soil temperature range.  It
    never holds SENSOR_MALFUNCTION, and never both moisture tags. *)
Theorem response_alerts (self : IrrigationDecisionEngine) (now : string)
    (soil_data weather_data : gmap string float) (s stage : string) (field_capacity : float) :
  analyze_outcome
    (λ r,
       (∀ t, t ∈ alerts r ↔
          (t = "LOW_MOISTURE"
           ∧ (soil_moisture_of soil_data <? moisture_critical_min (profile_of s)) = true)
          ∨ (t = "HIGH_MOISTURE"
             ∧ (soil_moisture_of soil_data <? moisture_critical_min (profile_of s)) = false
             ∧ (soil_moisture_of soil_data >? moisture_critical_max (profile_of s)) = true)
          ∨ (t = "RAIN_EXPECTED" ∧ (rain_probability_of weather_data >? 60%float) = true)
          ∨ (t = "NUTRIENT_DEFICIENCY"
             ∧ ((nitrogen_of soil_data <? nitrogen_min (profile_of s)) = true
                ∨ (phosphorus_of soil_data <? phosphorus_min (profile_of s)) = true
                ∨ (potassium_of soil_data <? potassium_min (profile_of s)) = true))
          ∨ (t = "PH_IMBALANCE"
             ∧ ((ph_optimal_min (profile_of s) <=? ph_of soil_data)
                && (ph_of soil_data <=? ph_optimal_max (profile_of s))) = false)
          ∨ (t = "EXTREME_TEMPERATURE"
             ∧ ((soil_temperature_of soil_data <? temp_optimal_min (profile_of s)) = true
                ∨ (soil_temperature_of soil_data >? temp_optimal_max (profile_of s)) = true)))
       ∧ ("SENSOR_MALFUNCTION" ∉ alerts r)
       ∧ ¬ ("LOW_MOISTURE" ∈ alerts r ∧ "HIGH_MOISTURE" ∈ alerts r))
    weather_data
    (analyze libm_pow self now soil_data weather_data (PyStr s) stage field_capacity).
Proof.
  apply analyze_outcome_intro. intros r Hr.
  apply build_response_fields in Hr as (d & _ & _ & Halerts & _).
  rewrite Halerts. split; [|split].
  - intros t. rewrite elem_of_list_to_set. apply elem_of_alert_checks.
  - rewrite elem_of_list_to_set. apply sensor_not_in_alert_checks.
  - rewrite !elem_of_list_to_set. intros [Hl Hh].
    apply elem_of_alert_checks in Hl, Hh.
    assert ((soil_moisture_of soil_data <? moisture_critical_min (profile_of s)) = true)
      by (destruct Hl as [[_ ?]|[[? _]|[[? _]|[[? _]|[[? _]|[? _]]]]]];
          [done|discriminate..]).
    assert ((soil_moisture_of soil_data <? moisture_critical_min (profile_of s)) = false)
      by (destruct Hh as [[? _]|[[_ [? _]]|[[? _]|[[? _]|[[? _]|[? _]]]]]];
          [discriminate|done|discriminate..]).
    congruence.
Qed.

(** The weather status announces rain exactly above a probability of 40. *)
Lemma analyze_weather_rain weather_data :
  _analyze_weather weather_data ∈ ["HEAVY_RAIN_EXPECTED"; "RAIN_LIKELY"] ↔
  (rain_probability_of weather_data >? 40%float) = true.
Proof.
  unfold _analyze_weather. fold (rain_probability_of weather_data).
  rewrite elem_of_pair.
  destruct (rain_probability_of weather_data >? 70%float) eqn:H70.
  - split; [intros _|by left]. unfold gtb in *.
    by apply (ltb_trans 40%float 70%float).
  - destruct (rain_probability_of weather_data >? 40%float) eqn:H40.
    + split; [done|by right].
    + split; [|done].
      repeat match goal with
      | |- context [if ?b then _ else _] => destruct b
      end; intros [?|?]; discriminate.
Qed.

(** The policy without a SENSOR_MALFUNCTION alert, outcome by outcome. *)
Lemma make_decision_outcomes moisture moisture_status weather_status rain_prob crop alerts :
  alert_value SENSOR_MALFUNCTION ∉ alerts →
  let d := _make_decision moisture moisture_status weather_status rain_prob crop alerts in
  (d = ALERT ↔ moisture_status = "CRITICALLY_LOW" ∨ moisture_status = "CRITICALLY_HIGH")
  ∧ (d = IRRIGATE ↔
       moisture_status = "LOW"
       ∧ (weather_status ∉ ["HEAVY_RAIN_EXPECTED"; "RAIN_LIKELY"])
       ∧ (rain_prob >? 60%float) = false
       ∧ (rain_prob <? 30%float) = true).
Proof.
  intros Hno. cbv zeta. unfold _make_decision.
  rewrite (bool_decide_eq_false_2 _ Hno).
  case_bool_decide as H1; rewrite elem_of_pair in H1.
  { split; [by split|]. split; [discriminate|].
    intros [-> _]. destruct H1; discriminate. }
  case_bool_decide as H3.
  { split; [split; [discriminate|done]|]. split; [discriminate|]. by intros (_ & ? & _). }
  case_bool_decide as H4; rewrite elem_of_pair in H4.
  { split; [split; [discriminate|done]|]. split; [discriminate|].
    intros [-> _]. destruct H4; discriminate. }
  destruct (rain_prob >? 60%float) eqn:H5.
  { split; [split; [discriminate|done]|]. split; [discriminate|]. by intros (_ & _ & ? & _). }
  case_bool_decide as H6; simpl.
  - destruct (rain_prob <? 30%float) eqn:H7.
    + split; [split; [discriminate|done]|]. by split.
    + split; [split; [discriminate|done]|]. split; [discriminate|]. by intros (_ & _ & _ & ?).
  - split; [split; [discriminate|done]|]. split; [discriminate|]. by intros [? _].
Qed.

(** X2: in a returned response the decision is ALERT exactly when the
    moisture grade is CRITICALLY_LOW or CRITICALLY_HIGH, IRRIGATE exactly
    when the grade is LOW and the rain probability is below 30, and HOLD
    in every other case. *)
Theorem response_decision (self : IrrigationDecisionEngine) (now : string)
    (soil_data weather_data : gmap string float) (s stage : string) (field_capacity : float) :
  analyze_outcome
    (λ r,
       (decision r = "ALERT" ↔
          moisture_status (soil (analysis r)) = "CRITICALLY_LOW"
          ∨ moisture_status (soil (analysis r)) = "CRITICALLY_HIGH")
       ∧ (decision r = "IRRIGATE" ↔
            moisture_status (soil (analysis r)) = "LOW"
            ∧ (rain_probability (weather (analysis r)) <? 30%float) = true)
       ∧ (decision r = "HOLD" ↔
            decision r ≠ "ALERT" ∧ decision r ≠ "IRRIGATE"))
    weather_data
    (analyze libm_pow self now soil_data weather_data (PyStr s) stage field_capacity).
Proof.
  apply analyze_outcome_intro. intros r Hr.
  apply build_response_fields in Hr as (d & Hd & Hdec & _ & _ & Hms & _ & Hrp & _).
  pose proof (make_decision_outcomes (soil_moisture_of soil_data)
    (_analyze_moisture (soil_moisture_of soil_data) (profile_of s) stage)
    (_analyze_weather weather_data) (rain_probability_of weather_data) (profile_of s)
    _ (sensor_not_in_alert_checks (profile_of s) soil_data weather_data)) as [Halert Hirr].
  cbv zeta in Halert, Hirr. rewrite <- Hd in Halert, Hirr.
  rewrite Hms, Hrp, Hdec. split; [|split].
  - rewrite <- Halert. split; [apply (advice_value_inj _ ALERT) | by intros ->].
  - split.
    + intros Hi. apply (advice_value_inj _ IRRIGATE), Hirr in Hi. tauto.
    + intros [Hlow Hrain].
      assert (d = IRRIGATE) as ->; [|done].
      apply Hirr. split; [done|]. split; [|split; [|done]].
      * rewrite analyze_weather_rain. rewrite (below_30_not_above _ _ Hrain); done.
      * by apply below_30_not_above.
  - destruct d; simpl; intuition discriminate.
Qed.

(** X3: in a returned response a rain probability above 60 is flagged
    RAIN_EXPECTED, the weather status is then HEAVY_RAIN_EXPECTED or
    RAIN_LIKELY, and the decision is not IRRIGATE: the rain rule of the
    policy from the weather status already covers every rain probability
    above 60. *)
Theorem response_rain_expected (self : IrrigationDecisionEngine) (now : string)
    (soil_data weather_data : gmap string float) (s stage : string) (field_capacity : float) :
  analyze_outcome
    (λ r,
       ("RAIN_EXPECTED" ∈ alerts r ↔
          (rain_probability (weather (analysis r)) >? 60%float) = true)
       ∧ ("RAIN_EXPECTED" ∈ alerts r →
            weather_status (weather (analysis r)) ∈ ["HEAVY_RAIN_EXPECTED"; "RAIN_LIKELY"]
            ∧ decision r ≠ "IRRIGATE"))
    weather_data
    (analyze libm_pow self now soil_data weather_data (PyStr s) stage field_capacity).
Proof.
  apply analyze_outcome_intro. intros r Hr.
  apply build_response_fields in Hr
    as (d & Hd & Hdec & Halerts & _ & _ & Hws & Hrp & _).
  assert (Hiff : "RAIN_EXPECTED" ∈ alerts r ↔
                 (rain_probability_of weather_data >? 60%float) = true).
  { rewrite Halerts, elem_of_list_to_set, elem_of_alert_checks.
    split; [|by intros ?; right; right; left].
    intros [[? _]|[[? _]|[[_ ?]|[[? _]|[[? _]|[? _]]]]]]; done || discriminate. }
  rewrite Hrp. split; [exact Hiff|].
  intros Hin. apply Hiff in Hin.
  assert (Hrain : _analyze_weather weather_data ∈ ["HEAVY_RAIN_EXPECTED"; "RAIN_LIKELY"]).
  { apply analyze_weather_rain. unfold gtb in *.
    by apply (ltb_trans 40%float 60%float). }
  rewrite Hws. split; [exact Hrain|].
  rewrite Hdec. intros Hi. apply (advice_value_inj _ IRRIGATE) in Hi.
  rewrite Hd in Hi.
  apply make_decision_outcomes in Hi as (_ & Hno & _); [done|].
  apply sensor_not_in_alert_checks.
Qed.

(** X4: in a returned response the hours until the next check are 2
    exactly for ALERT, 12 exactly for IRRIGATE, and for HOLD 6 when the
    rain probability is above 40 and 24 otherwise. *)
Theorem response_next_check (self : IrrigationDecisionEngine) (now : string)
    (soil_data weather_data : gmap string float) (s stage : string) (field_capacity : float) :
  analyze_outcome
    (λ r,
       (next_check_hours (recommendations r) = 2%Z ↔ decision r = "ALERT")
       ∧ (next_check_hours (recommendations r) = 12%Z ↔ decision r = "IRRIGATE")
       ∧ (next_check_hours (recommendations r) = 6%Z ↔
            decision r = "HOLD"
            ∧ (rain_probability (weather (analysis r)) >? 40%float) = true)
       ∧ (next_check_hours (recommendations r) = 24%Z ↔
            decision r = "HOLD"
            ∧ (rain_probability (weather (analysis r)) >? 40%float) = false))
    weather_data
    (analyze libm_pow self now soil_data weather_data (PyStr s) stage field_capacity).
Proof.
  apply analyze_outcome_intro. intros r Hr.
  apply build_response_fields in Hr
    as (d & _ & Hdec & _ & _ & _ & _ & Hrp & _ & Hnext).
  rewrite Hnext, Hdec, Hrp. unfold _next_check_interval.
  pose proof (analyze_weather_rain weather_data) as Hrain.
  destruct d; simpl.
  - repeat split; try discriminate; try done; by intros [? _].
  - case_bool_decide as Hw.
    + apply Hrain in Hw. rewrite Hw. repeat split; try discriminate; try done; by intros [_ ?].
    + destruct (rain_probability_of weather_data >? 40%float) eqn:E.
      * by destruct Hw; apply Hrain.
      * repeat split; try discriminate; try done; by intros [_ ?].
  - repeat split; try discriminate; try done; by intros [? _].
Qed.

(** X5: the nutrient status is ADEQUATE exactly when nitrogen, phosphorus
    and potassium all reach their minimum, DEFICIENT otherwise, and never
    BORDERLINE; a nutrient below its minimum makes the status DEFICIENT,
    so a returned response with a NUTRIENT_DEFICIENCY alert has status
    DEFICIENT. *)
Theorem nutrient_status_cases (n p k : float) (crop : CropProfile) :
  (_analyze_nutrients n p k crop = "ADEQUATE" ↔
     (n >=? nitrogen_min crop) = true ∧ (p >=? phosphorus_min crop) = true
     ∧ (k >=? potassium_min crop) = true)
  ∧ (_analyze_nutrients n p k crop = "DEFICIENT" ↔
       (n >=? nitrogen_min crop) = false ∨ (p >=? phosphorus_min crop) = false
       ∨ (k >=? potassium_min crop) = false)
  ∧ _analyze_nutrients n p k crop ≠ "BORDERLINE"
  ∧ ((n <? nitrogen_min crop) = true ∨ (p <? phosphorus_min crop) = true
     ∨ (k <? potassium_min crop) = true →
     _analyze_nutrients n p k crop = "DEFICIENT")
  ∧ (∀ self now soil_data weather_data s stage field_capacity,
       nitrogen_of soil_data = n → phosphorus_of soil_data = p →
       potassium_of soil_data = k → profile_of s = crop →
       analyze_outcome
         (λ r, "NUTRIENT_DEFICIENCY" ∈ alerts r →
               nutrient_status (nutrients (soil (analysis r))) = "DEFICIENT")
         weather_data
         (analyze libm_pow self now soil_data weather_data (PyStr s) stage field_capacity)).
Proof.
  assert (Hbelow : (n <? nitrogen_min crop) = true ∨ (p <? phosphorus_min crop) = true
     ∨ (k <? potassium_min crop) = true →
     _analyze_nutrients n p k crop = "DEFICIENT").
  { unfold _analyze_nutrients, geb.
    intros [H|[H|H]]; rewrite (ltb_leb_false _ _ H);
      repeat match goal with
      | |- context [PrimFloat.leb ?a ?b] => destruct (PrimFloat.leb a b)
      end; reflexivity. }
  split; [|split; [|split; [|split; [exact Hbelow|]]]].
  - unfold _analyze_nutrients.
    destruct (n >=? _), (p >=? _), (k >=? _); simpl; intuition discriminate.
  - unfold _analyze_nutrients.
    destruct (n >=? _), (p >=? _), (k >=? _); simpl; intuition discriminate.
  - unfold _analyze_nutrients.
    destruct (n >=? _), (p >=? _), (k >=? _); simpl; discriminate.
  - intros self now soil_data weather_data s stage fc Hn Hp Hk Hc.
    apply analyze_outcome_intro. intros r Hr.
    apply build_response_fields in Hr
      as (d & _ & _ & Halerts & _ & _ & _ & _ & Hnut & _).
    rewrite Halerts, elem_of_list_to_set, elem_of_alert_checks, Hnut, Hn, Hp, Hk, Hc.
    intros [[? _]|[[? _]|[[? _]|[[_ H]|[[? _]|[? _]]]]]]; try discriminate.
    by apply Hbelow.
Qed.

Lemma size_list_to_set_le (l : list string) :
  size (list_to_set l : gset string) ≤ length l.
Proof.
  induction l as [|x l IH].
  - change (size (∅ : gset string) ≤ 0). by rewrite size_empty.
  - rewrite list_to_set_cons, size_union_alt, size_singleton. simpl.
    pose proof (subseteq_size (list_to_set l ∖ {[x]}) (list_to_set l : gset string)
                  (subseteq_difference_l _ _ _ (reflexivity _))).
    lia.
Qed.

Lemma length_checks crop soil_data weather_data :
  length (reason_checks crop soil_data weather_data)
  = length (alert_checks crop soil_data weather_data)
  ∧ length (alert_checks crop soil_data weather_data) ≤ 7.
Proof.
  unfold reason_checks, alert_checks. rewrite !length_app, !length_when.
  repeat match goal with
  | |- context [if ?b then _ else _] => destruct b
  end; simpl; lia.
Qed.

Lemma reason_checks_no_recommendation crop soil_data weather_data :
  Forall (λ reason, is_recommendation reason = false)
    (reason_checks crop soil_data weather_data).
Proof.
  unfold reason_checks, when. rewrite !Forall_app.
  repeat split;
    repeat match goal with
    | |- context [if ?b then _ else _] => destruct b
    end; repeat constructor.
Qed.

(** X6: in a returned response every alert tag has a reason (the alert
    set is no larger than the list of reasons), there are at most eight
    reasons, and the last reason is the recommended irrigation, with the
    amount and duration of the recommendation, exactly when the decision
    is IRRIGATE. *)
Theorem response_reasons (self : IrrigationDecisionEngine) (now : string)
    (soil_data weather_data : gmap string float) (s stage : string) (field_capacity : float) :
  analyze_outcome
    (λ r,
       size (alerts r) ≤ length (reasons r)
       ∧ length (reasons r) ≤ 8
       ∧ (decision r = "IRRIGATE" →
            last (reasons r) =
              Some (RecommendedIrrigation (irrigation_amount_mm (recommendations r))
                      (irrigation_duration_minutes (recommendations r))))
       ∧ (decision r ≠ "IRRIGATE" →
            Forall (λ reason, is_recommendation reason = false) (reasons r)))
    weather_data
    (analyze libm_pow self now soil_data weather_data (PyStr s) stage field_capacity).
Proof.
  apply analyze_outcome_intro. intros r Hr.
  apply build_response_fields in Hr as (d & _ & Hdec & Halerts & Hreasons & _).
  destruct (length_checks (profile_of s) soil_data weather_data) as [Hlen H7].
  pose proof (size_list_to_set_le (alert_checks (profile_of s) soil_data weather_data)).
  rewrite Halerts, Hreasons, Hdec, length_app, length_when, Hlen.
  split; [lia|]. split; [destruct (bool_decide _); lia|]. split.
  - intros Hi. apply (advice_value_inj _ IRRIGATE) in Hi. rewrite Hi. simpl.
    apply last_snoc.
  - intros Hi. rewrite bool_decide_eq_false_2 by (by intros ->).
    simpl. rewrite app_nil_r. apply reason_checks_no_recommendation.
Qed.

(** X7: a moisture above the critical maximum raises the HIGH_MOISTURE
    alert, but when the stage-adjusted optimal maximum is even higher the
    grade of such a moisture is OPTIMAL and the decision HOLD, not
    ALERT. *)
Theorem high_moisture_alert_with_hold (self : IrrigationDecisionEngine) (now : string)
    (soil_data weather_data : gmap string float) (s stage : string) (field_capacity : float) :
  (moisture_critical_max (profile_of s) <? soil_moisture_of soil_data) = true →
  (moisture_critical_min (profile_of s) <=? soil_moisture_of soil_data) = true →
  (moisture_optimal_min (profile_of s) * stage_factor (profile_of s) stage
     <=? soil_moisture_of soil_data) = true →
  (soil_moisture_of soil_data
     <=? moisture_optimal_max (profile_of s) * stage_factor (profile_of s) stage) = true →
  analyze_outcome
    (λ r, "HIGH_MOISTURE" ∈ alerts r
          ∧ moisture_status (soil (analysis r)) = "OPTIMAL"
          ∧ decision r = "HOLD")
    weather_data
    (analyze libm_pow self now soil_data weather_data (PyStr s) stage field_capacity).
Proof.
  intros Hmax Hcrit Hlo Hhi.
  apply analyze_outcome_intro. intros r Hr.
  apply build_response_fields in Hr as (d & Hd & Hdec & Halerts & _ & Hms & _).
  assert (Hgrade : _analyze_moisture (soil_moisture_of soil_data) (profile_of s) stage
                   = "OPTIMAL").
  { rewrite analyze_moisture_stage_factor. cbv zeta.
    by rewrite (leb_ltb_false _ _ Hcrit), (leb_ltb_false _ _ Hlo), Hhi. }
  split; [|split].
  - rewrite Halerts, elem_of_list_to_set, elem_of_alert_checks.
    right; left. split; [done|]. split; [by apply leb_ltb_false|done].
  - by rewrite Hms.
  - rewrite Hdec, Hd, Hgrade.
    rewrite make_decision_no_sensor by apply sensor_not_in_alert_checks.
    unfold _make_decision. simpl. by destruct (bool_decide (_analyze_weather _ ∈ _)).
Qed.

(** ** When [analyze] raises *)

(** [wind ** 0.5] is complex exactly on a negative wind speed other than
    minus infinity. *)
Lemma pow_half_complex_iff wind :
  pow_half libm_pow wind = PyComplex ↔
  (wind <? 0%float) = true ∧ PrimFloat.is_infinity wind = false.
Proof.
  split.
  - intros H. split; [by apply (pow_half_complex libm_pow)|].
    unfold pow_half in H.
    destruct (PrimFloat.is_nan wind); [discriminate|].
    by destruct (PrimFloat.is_infinity wind).
  - intros [Hneg Hfin]. unfold pow_half, PrimFloat.is_zero.
    by rewrite (ltb_not_nan _ _ Hneg), Hfin, (ltb_not_eqb wind PrimFloat.zero Hneg), Hneg.
Qed.

Lemma calculate_et_raise_iff temp humidity wind stage crop e :
  _calculate_et libm_pow temp humidity wind stage crop = Raise e ↔
  e = TypeError ∧ pow_half libm_pow wind = PyComplex.
Proof.
  unfold _calculate_et. destruct (pow_half libm_pow wind) as [root|]; simpl.
  - split; [discriminate|by intros [_ ?]].
  - split; [by intros [= <-]|by intros [-> _]].
Qed.

(** X8: when the crop type and the growth stage are strings and every
    reading and the field capacity are floats, [analyze] raises exactly
    when the wind speed is negative and not minus infinity; the exception
    is then a TypeError and the engine is unchanged.  On every other wind
    speed (NaN and the infinities included) it returns a response and
    appends it to the log.  (Readings of other types, such as None, a
    string or an integer too large for a float, are outside this
    statement: they raise on their own.) *)
Theorem analyze_raises_iff (self : IrrigationDecisionEngine) (now : string)
    (soil_data weather_data : gmap string float) (s stage : string) (field_capacity : float) :
  (∀ e self',
     analyze libm_pow self now soil_data weather_data (PyStr s) stage field_capacity
       = (Raise e, self') ↔
     e = TypeError ∧ self' = self
     ∧ (wind_speed_of weather_data <? 0%float) = true
     ∧ PrimFloat.is_infinity (wind_speed_of weather_data) = false)
  ∧ ((wind_speed_of weather_data <? 0%float) = false
     ∨ PrimFloat.is_infinity (wind_speed_of weather_data) = true →
     ∃ r, analyze libm_pow self now soil_data weather_data (PyStr s) stage field_capacity
          = (Ok r, {| decision_log := decision_log self ++ [r] |})).
Proof.
  assert (Hraise : ∀ e,
    build_response libm_pow now soil_data weather_data (PyStr s) stage field_capacity
      = Raise e ↔
    e = TypeError ∧ (wind_speed_of weather_data <? 0%float) = true
    ∧ PrimFloat.is_infinity (wind_speed_of weather_data) = false).
  { intros e. rewrite <- pow_half_complex_iff, <- calculate_et_raise_iff. split.
    - apply build_response_raise.
    - intros Het.
      destruct (build_response _ _ _ _ _ _ _) as [r|e'] eqn:E.
      + apply build_response_inv in E as (? & ? & _ & Het' & _). congruence.
      + apply build_response_raise in E. congruence. }
  split.
  - intros e self'. specialize (Hraise e). unfold analyze.
    destruct (build_response _ _ _ _ _ _ _) as [r|e']; split.
    + discriminate.
    + intros (He & _ & Hw). by apply proj2 in Hraise; specialize (Hraise (conj He Hw)).
    + intros [= -> <-]. destruct Hraise as [Hraise _].
      destruct (Hraise eq_refl) as (? & ? & ?). done.
    + intros (-> & -> & Hw). destruct Hraise as [_ Hraise].
      by injection (Hraise (conj eq_refl Hw)) as ->.
  - intros Hwind. unfold analyze.
    destruct (build_response _ _ _ _ _ _ _) as [r|e] eqn:E; [by exists r|].
    destruct (proj1 (Hraise e) eq_refl) as (_ & Hneg & Hfin).
    destruct Hwind; congruence.
Qed.

(** ** Monotonicity of the moisture grade *)

(** X9: the moisture grade never goes down when the moisture goes up: for
    moisture values [m1 <= m2] the grade of [m1] is at most the grade of
    [m2] on the scale CRITICALLY_LOW, LOW, OPTIMAL, HIGH, CRITICALLY_HIGH,
    for every profile and stage. *)
Theorem analyze_moisture_monotone (m1 m2 : float) (crop : CropProfile) (stage : string) :
  (m1 <=? m2) = true →
  grade_rank (_analyze_moisture m1 crop stage)
  ≤ grade_rank (_analyze_moisture m2 crop stage).
Proof.
  intros Hle. rewrite !analyze_moisture_stage_factor. cbv zeta.
  destruct (m2 <? moisture_critical_min crop) eqn:H1.
  { rewrite (leb_ltb_trans _ _ _ Hle H1). vm_compute; lia. }
  destruct (m2 <? moisture_optimal_min crop * stage_factor crop stage) eqn:H2.
  { rewrite (leb_ltb_trans _ _ _ Hle H2).
    destruct (m1 <? moisture_critical_min crop); vm_compute; lia. }
  destruct (m2 <=? moisture_optimal_max crop * stage_factor crop stage) eqn:H3.
  { rewrite (leb_trans _ _ _ Hle H3).
    destruct (m1 <? moisture_critical_min crop),
      (m1 <? moisture_optimal_min crop * stage_factor crop stage); vm_compute; lia. }
  destruct (m2 <=? moisture_critical_max crop) eqn:H4.
  { rewrite (leb_trans _ _ _ Hle H4).
    destruct (m1 <? moisture_critical_min crop),
      (m1 <? moisture_optimal_min crop * stage_factor crop stage),
      (m1 <=? moisture_optimal_max crop * stage_factor crop stage); vm_compute; lia. }
  repeat match goal with
  | |- context [if ?b then _ else _] => destruct b
  end; vm_compute; lia.
Qed.

End Response.

(** ** The history and advice endpoints *)

Section Http.

Variable libm_pow : float → float → float.

Local Open Scope py_scope.

Lemma py_slice_from_last_k {A} (l : list A) (k : Z) :
  (0 < k)%Z →
  py_slice_from l (- k) = drop (length l - Z.to_nat k) l.
Proof.
  intros Hk. unfold py_slice_from.
  destruct (Z.ltb_spec (- k) 0) as [_|?]; [|lia].
  f_equal. lia.
Qed.

(** X10: the history endpoint answers with the length of the log as total
    and with a suffix of the log: its last [limit] records (all of them
    when there are fewer) for a positive [limit], 10 by default; the whole
    log for [limit = 0]; and for a negative [limit] the log without its
    first [-limit] records. *)
Theorem decision_history_slice (engine : IrrigationDecisionEngine) (limit_arg : option Z) :
  (get_decision_history engine limit_arg).2 = length (decision_log engine)
  ∧ (∃ older, decision_log engine = older ++ (get_decision_history engine limit_arg).1)
  ∧ (∀ limit, limit_arg = Some limit → (0 < limit)%Z →
       length (get_decision_history engine limit_arg).1
       = Nat.min (Z.to_nat limit) (length (decision_log engine)))
  ∧ (limit_arg = None →
       length (get_decision_history engine limit_arg).1
       = Nat.min 10 (length (decision_log engine)))
  ∧ (limit_arg = Some 0%Z →
       (get_decision_history engine limit_arg).1 = decision_log engine)
  ∧ (∀ limit, limit_arg = Some limit → (limit < 0)%Z →
       (get_decision_history engine limit_arg).1
       = drop (Z.to_nat (- limit)) (decision_log engine)).
Proof.
  unfold get_decision_history. cbn [fst snd].
  split; [reflexivity|]. split; [|split; [|split; [|split]]].
  - eexists. unfold py_slice_from. symmetry. apply take_drop.
  - intros limit -> Hpos. change (default 10%Z (Some limit)) with limit.
    rewrite py_slice_from_last_k, length_drop by done. lia.
  - intros ->. change (default 10%Z None) with 10%Z.
    rewrite (py_slice_from_last_k _ 10), length_drop by done.
    change (Z.to_nat 10) with 10. lia.
  - intros ->. change (default 10%Z (Some 0%Z)) with 0%Z. unfold py_slice_from.
    change (- 0 <? 0)%Z with false. cbv iota. change (- 0)%Z with 0%Z.
    by rewrite Z.min_l by lia.
  - intros limit -> Hneg. change (default 10%Z (Some limit)) with limit.
    unfold py_slice_from.
    destruct (Z.ltb_spec (- limit) 0) as [?|_]; [lia|].
    destruct (Z.le_gt_cases (- limit) (Z.of_nat (length (decision_log engine)))).
    + f_equal. lia.
    + rewrite !drop_ge; [done|lia..].
Qed.

(** X11: after a call to [analyze] that returned [r], the history
    endpoint with any positive [limit], or none, ends with [r], with
    [limit = 1] it answers exactly [[r]], and its total is one more than
    the length of the log before the call. *)
Theorem history_after_analyze (self self' : IrrigationDecisionEngine) (now : string)
    (soil_data weather_data : gmap string float) (crop_type : pyobj) (stage : string)
    (field_capacity : float) (r : Response) :
  analyze libm_pow self now soil_data weather_data crop_type stage field_capacity
    = (Ok r, self') →
  (∀ limit, (0 < limit)%Z → last (get_decision_history self' (Some limit)).1 = Some r)
  ∧ last (get_decision_history self' None).1 = Some r
  ∧ (get_decision_history self' (Some 1%Z)).1 = [r]
  ∧ (∀ limit_arg, (get_decision_history self' limit_arg).2 = S (length (decision_log self))).
Proof.
  intros Ha. apply analyze_ok in Ha as [_ ->].
  assert (Hlast : ∀ limit, (0 < limit)%Z →
    py_slice_from (decision_log self ++ [r]) (- limit)
    = drop (S (length (decision_log self)) - Z.to_nat limit) (decision_log self) ++ [r]).
  { intros limit Hpos. rewrite py_slice_from_last_k by done.
    rewrite length_app. simpl. rewrite Nat.add_1_r.
    rewrite drop_app_le by lia. done. }
  unfold get_decision_history. simpl. split; [|split; [|split]].
  - intros limit Hpos. rewrite Hlast by done. apply last_snoc.
  - rewrite (Hlast 10%Z) by done. apply last_snoc.
  - rewrite (Hlast 1%Z) by done.
    replace (S (length (decision_log self)) - Z.to_nat 1)%nat
      with (length (decision_log self)) by lia.
    by rewrite drop_all.
  - intros _. rewrite length_app. simpl. lia.
Qed.

Lemma py_not_true v : py_not v = true ↔ v = JAbsent ∨ v = JFalsy ∨ v = JDict ∅.
Proof.
  destruct v as [| | |d]; simpl.
  - split; [by left|done].
  - split; [by right; left|done].
  - split; [done|by intros [?|[?|?]]].
  - rewrite bool_decide_eq_true. split.
    + intros Hsize. right; right. f_equal. by apply map_size_empty_inv.
    + intros [?|[?|[= ->]]]; [done..|]. apply map_size_empty.
Qed.

Lemma lookup_profile_raise crop_type e :
  lookup_profile crop_type = Raise e → e = AttributeError.
Proof. destruct crop_type; [by intros [= <-]|discriminate]. Qed.

Lemma advice_out_other engine now :
  get_irrigation_advice libm_pow engine now JsonOther
  = ((ErrorBody AttributeError now, 500%Z), engine).
Proof. reflexivity. Qed.

Lemma advice_out_missing engine now data :
  py_not (req_soil_data data) || py_not (req_weather_data data) = true →
  get_irrigation_advice libm_pow engine now (JsonObject data)
  = ((MissingFields, 400%Z), engine).
Proof. intros H. unfold get_irrigation_advice. by rewrite H. Qed.

(** Past the check of the two fields: a truthy value that is not an
    object makes [analyze] raise an AttributeError; two objects go to
    [analyze]. *)
Lemma advice_out_present engine now data :
  py_not (req_soil_data data) || py_not (req_weather_data data) = false →
  (get_irrigation_advice libm_pow engine now (JsonObject data)
   = ((ErrorBody AttributeError now, 500%Z), engine)
   ∧ (req_soil_data data = JTruthy ∨ req_weather_data data = JTruthy))
  ∨ (∃ soil_data weather_data,
       req_soil_data data = JDict soil_data
       ∧ req_weather_data data = JDict weather_data
       ∧ get_irrigation_advice libm_pow engine now (JsonObject data)
         = match analyze libm_pow engine now soil_data weather_data
                   (default (PyStr "default") (req_crop_type data))
                   (default "vegetative" (req_growth_stage data))
                   (default 100%float (req_field_capacity data)) with
           | (Ok r, engine') => ((Advice r, 200%Z), engine')
           | (Raise e, engine') => ((ErrorBody e now, 500%Z), engine')
           end).
Proof.
  intros Hnot. unfold get_irrigation_advice. rewrite Hnot.
  apply orb_false_iff in Hnot as [Hs Hw].
  destruct (req_soil_data data) as [| | |soil_data]; try discriminate;
    destruct (req_weather_data data) as [| | |weather_data]; try discriminate.
  - left. split; [|by left].
    destruct (lookup_profile _) as [?|e] eqn:E; [done|].
    by apply lookup_profile_raise in E as ->.
  - left. split; [|by left].
    destruct (lookup_profile _) as [?|e] eqn:E; [done|].
    by apply lookup_profile_raise in E as ->.
  - left. split; [|by right].
    destruct (lookup_profile _) as [?|e] eqn:E; [done|].
    by apply lookup_profile_raise in E as ->.
  - right. by exists soil_data, weather_data.
Qed.

(** X12: on a JSON object the advice endpoint answers 400, and leaves the
    log alone, exactly when [soil_data] or [weather_data] is falsy:
    absent, null, false, 0, "", [] or an empty object (although [analyze]
    accepts empty dictionaries).  It answers 500 with an AttributeError
    and an unchanged log on a body that is not an object and on a truthy
    [soil_data] or [weather_data] that is not an object.  On two
    non-empty objects it answers 200 with the response of [analyze],
    which is then the one new record of the log, or 500 with the
    exception [analyze] raised and an unchanged log. *)
Theorem advice_endpoint (engine : IrrigationDecisionEngine) (now : string)
    (body : RequestBody) :
  let out := get_irrigation_advice libm_pow engine now body in
  (out.1.2 = 400%Z ↔
     ∃ data, body = JsonObject data
             ∧ (py_not (req_soil_data data) = true ∨ py_not (req_weather_data data) = true))
  ∧ (∀ v, py_not v = true ↔ v = JAbsent ∨ v = JFalsy ∨ v = JDict ∅)
  ∧ (out.1.2 = 400%Z → out.1.1 = MissingFields ∧ out.2 = engine)
  ∧ (out.1.2 = 200%Z ↔
       ∃ r, out.1.1 = Advice r ∧ decision_log out.2 = decision_log engine ++ [r])
  ∧ (out.1.2 = 200%Z →
       ∃ data soil_data weather_data,
         body = JsonObject data
         ∧ req_soil_data data = JDict soil_data
         ∧ req_weather_data data = JDict weather_data)
  ∧ (out.1.2 = 500%Z ↔ ∃ e, out.1.1 = ErrorBody e now)
  ∧ (out.1.2 = 500%Z → out.2 = engine)
  ∧ (body = JsonOther → out.1 = (ErrorBody AttributeError now, 500%Z))
  ∧ (∀ data, body = JsonObject data → out.1.2 ≠ 400%Z →
       req_soil_data data = JTruthy ∨ req_weather_data data = JTruthy →
       out.1 = (ErrorBody AttributeError now, 500%Z))
  ∧ (out.1.2 = 200%Z ∨ out.1.2 = 400%Z ∨ out.1.2 = 500%Z)
  ∧ (∀ data soil_data weather_data,
       body = JsonObject data →
       req_soil_data data = JDict soil_data → req_weather_data data = JDict weather_data →
       out.1.2 ≠ 400%Z →
       out = match analyze libm_pow engine now soil_data weather_data
                     (default (PyStr "default") (req_crop_type data))
                     (default "vegetative" (req_growth_stage data))
                     (default 100%float (req_field_capacity data)) with
             | (Ok r, engine') => ((Advice r, 200%Z), engine')
             | (Raise e, engine') => ((ErrorBody e now, 500%Z), engine')
             end).
Proof.
  cbv zeta. destruct body as [data|].
  2: { rewrite advice_out_other. cbn [fst snd].
       split; [split; [discriminate|by intros (? & ? & _)]|].
       split; [exact py_not_true|].
       split; [discriminate|].
       split; [split; [discriminate|by intros (? & ? & _)]|].
       split; [discriminate|].
       split; [split; [by exists AttributeError|done]|].
       split; [done|]. split; [done|]. split; [discriminate|].
       split; [by right; right|]. discriminate. }
  destruct (py_not (req_soil_data data) || py_not (req_weather_data data)) eqn:Hnot.
  { rewrite (advice_out_missing _ _ _ Hnot). cbn [fst snd].
    apply orb_true_iff in Hnot.
    split; [split; [intros _; by exists data|done]|].
    split; [exact py_not_true|].
    split; [done|].
    split; [split; [discriminate|by intros (? & ? & _)]|].
    split; [discriminate|].
    split; [split; [discriminate|by intros (? & ?)]|].
    split; [discriminate|]. split; [discriminate|].
    split; [by intros|]. split; [by right; left|]. by intros. }
  assert (H400 : ¬ ∃ d, JsonObject data = JsonObject d
                        ∧ (py_not (req_soil_data d) = true
                           ∨ py_not (req_weather_data d) = true)).
  { apply orb_false_iff in Hnot as [Hs Hw]. intros (d & [= <-] & [?|?]); congruence. }
  destruct (advice_out_present engine now data Hnot) as [[Hout Hnon]|(soil & weather & Es & Ew & Hout)].
  - (* a truthy value that is not an object *)
    rewrite Hout. cbn [fst snd].
    split; [split; [discriminate|done]|].
    split; [exact py_not_true|].
    split; [discriminate|].
    split; [split; [discriminate|by intros (? & ? & _)]|].
    split; [discriminate|].
    split; [split; [by exists AttributeError|done]|].
    split; [done|]. split; [discriminate|].
    split; [by intros|]. split; [by right; right|].
    intros d soil weather [= <-] Es Ew. destruct Hnon; congruence.
  - (* two objects *)
    rewrite Hout. unfold analyze.
    destruct (build_response _ _ _ _ _ _ _) as [r|e] eqn:E; cbn [fst snd decision_log].
    + split; [split; [discriminate|done]|].
      split; [exact py_not_true|].
      split; [discriminate|].
      split; [split; [by exists r|done]|].
      split; [intros _; by exists data, soil, weather|].
      split; [split; [discriminate|by intros (? & ?)]|].
      split; [discriminate|]. split; [discriminate|].
      split; [intros d [= <-] _ [?|?]; congruence|].
      split; [by left|].
      intros d soil' weather' [= <-]. rewrite Es, Ew. intros [= <-] [= <-] _.
      by rewrite E.
    + split; [split; [discriminate|done]|].
      split; [exact py_not_true|].
      split; [discriminate|].
      split; [split; [discriminate|by intros (? & ? & _)]|].
      split; [discriminate|].
      split; [split; [by exists e|done]|].
      split; [done|]. split; [discriminate|].
      split; [intros d [= <-] _ [?|?]; congruence|].
      split; [by right; right|].
      intros d soil' weather' [= <-]. rewrite Es, Ew. intros [= <-] [= <-] _.
      by rewrite E.
Qed.

End Http.

(** ** The profiles of the table *)

Section Profiles.

Local Open Scope py_scope.

Lemma profile_of_cases s :
  profile_of s ∈ [tomato; maize; potato; lettuce; generic_crop].
Proof.
  unfold profile_of. destruct (CROP_PROFILES !! lower s) as [p|] eqn:E; simpl.
  - apply crop_profiles_keys in E. rewrite !elem_of_cons, elem_of_nil in E.
    rewrite !elem_of_cons.
    destruct E as [E|[E|[E|[E|[E|[]]]]]]; injection E as _ ->; tauto.
  - rewrite !elem_of_cons. tauto.
Qed.

(** X13: whatever the crop type, the profile [analyze] works with has
    ordered bounds, critical_min <= optimal_min <= optimal_max <=
    critical_max for moisture, and min <= max for pH and temperature, and
    each of its growth-stage factors lies between 0.5 and 1.4. *)
Theorem profile_bounds_ordered (s : string) :
  (moisture_critical_min (profile_of s) <=? moisture_optimal_min (profile_of s)) = true
  ∧ (moisture_optimal_min (profile_of s) <=? moisture_optimal_max (profile_of s)) = true
  ∧ (moisture_optimal_max (profile_of s) <=? moisture_critical_max (profile_of s)) = true
  ∧ (ph_optimal_min (profile_of s) <=? ph_optimal_max (profile_of s)) = true
  ∧ (temp_optimal_min (profile_of s) <=? temp_optimal_max (profile_of s)) = true
  ∧ (∀ stage f, growth_stage_factor (profile_of s) !! stage = Some f →
       (0.5%float <=? f) = true ∧ (f <=? 1.4%float) = true).
Proof.
  pose proof (profile_of_cases s) as H.
  rewrite !elem_of_cons, elem_of_nil in H.
  destruct H as [->|[->|[->|[->|[->|[]]]]]];
    (repeat (split; [reflexivity|]));
    intros stage f Hf; apply elem_of_list_to_map_2 in Hf;
    rewrite !elem_of_cons, elem_of_nil in Hf;
    repeat (destruct Hf as [Hf|Hf]; [injection Hf as _ ->; by split|]);
    destruct Hf.
Qed.

End Profiles.

(** ** Concrete runs of the further properties *)

(** Tomato at fruiting (factor 1.3, optimal maximum 104) with moisture 95,
    above the critical maximum 90. *)
Lemma high_moisture_alert_with_hold_tomato :
  (moisture_critical_max tomato <? 95%float)%py = true
  ∧ (moisture_critical_min tomato <=? 95%float)%py = true
  ∧ (moisture_optimal_min tomato * stage_factor tomato "fruiting" <=? 95%float)%py = true
  ∧ (95%float <=? moisture_optimal_max tomato * stage_factor tomato "fruiting")%py = true
  ∧ analyze_outcome
      (λ r, "HIGH_MOISTURE" ∈ alerts r
            ∧ moisture_status (soil (analysis r)) = "OPTIMAL"
            ∧ decision r = "HOLD")
      ∅
      (analyze sqrt_pow init "" {[ "soil_moisture" := 95%float ]} ∅
         (PyStr "tomato") "fruiting" 100%float).
Proof.
  split; [reflexivity|]. split; [reflexivity|].
  split; [reflexivity|]. split; [reflexivity|].
  apply (high_moisture_alert_with_hold sqrt_pow init "" {[ "soil_moisture" := 95%float ]} ∅
           "tomato" "fruiting" 100%float); reflexivity.
Defined.

(** Tomato in its vegetative stage: moisture 50 is LOW, 70 is OPTIMAL. *)
Lemma analyze_moisture_monotone_tomato :
  (50%float <=? 70%float)%py = true
  ∧ grade_rank (_analyze_moisture 50%float tomato "vegetative")
    ≤ grade_rank (_analyze_moisture 70%float tomato "vegetative").
Proof.
  split; [reflexivity|].
  apply (analyze_moisture_monotone 50%float 70%float tomato "vegetative"). reflexivity.
Defined.

(** Scenario B on an empty log, then the history endpoint. *)
Lemma history_after_analyze_scenario_B :
  ∃ r self',
    analyze sqrt_pow init "" {[ "soil_moisture" := 50%float ]}
      {[ "rain_probability" := 20%float ]} (PyStr "tomato") "vegetative" 100%float
      = (Ok r, self')
    ∧ (∀ limit, (0 < limit)%Z → last (get_decision_history self' (Some limit)).1 = Some r)
    ∧ last (get_decision_history self' None).1 = Some r
    ∧ (get_decision_history self' (Some 1%Z)).1 = [r]
    ∧ (∀ limit_arg, (get_decision_history self' limit_arg).2 = S (length (decision_log init))).
Proof.
  eexists _, _. split; [vm_compute; reflexivity|].
  apply (history_after_analyze sqrt_pow init _ "" {[ "soil_moisture" := 50%float ]}
           {[ "rain_probability" := 20%float ]} (PyStr "tomato") "vegetative" 100%float).
  vm_compute; reflexivity.
Defined.
